(** * server.js: authentication, upload, listing and deletion handlers

    A shallow embedding of the Express handlers of [server.js] over a model
    of the three platform services they call (identity provider, document
    store, object store).  Each handler is a computation in a small state
    and exception monad: the state is the contents of the services together
    with the log of platform calls made so far, an exception is a rejected
    promise or a thrown error.  A handler runs to its end before the next
    request is looked at; interleavings of requests are outside the model. *)

From Stdlib Require Import ZArith NArith String Ascii List Sorting.Sorted.
From stdpp Require Import base decidable option list gmap fin_maps strings
  pretty sorting.

Local Open Scope string_scope.

(** ** JavaScript string helpers *)

Module Js.

(** [s.startsWith(p)] *)
Fixpoint starts_with (p s : string) : bool :=
  match p with
  | EmptyString => true
  | String a p' =>
      match s with
      | EmptyString => false
      | String b s' => Ascii.eqb a b && starts_with p' s'
      end
  end.

(** [s.split(sep)] for a non-empty separator [sep]: the pieces of [s]
    between successive occurrences of [sep], scanning left to right.
    [skip] counts the characters of a matched separator still to drop. *)
Fixpoint split_go (sep : string) (skip : nat) (s : string) : list string :=
  match s with
  | EmptyString => [EmptyString]
  | String c s' =>
      match skip with
      | S k => split_go sep k s'
      | O =>
          if starts_with sep s
          then EmptyString :: split_go sep (String.length sep - 1) s'
          else match split_go sep 0 s' with
               | h :: t => String c h :: t
               | [] => [String c EmptyString]
               end
      end
  end.

Definition split (sep s : string) : list string := split_go sep 0 s.

(** [s.includes(sub)] *)
Fixpoint includes (sub s : string) : bool :=
  match s with
  | EmptyString => starts_with sub s
  | String _ s' => starts_with sub s || includes sub s'
  end.

(** [a[i]] on an array of strings; [None] is [undefined]. *)
Definition index (a : list string) (i : nat) : option string := a !! i.

(** Truthiness of a value that is a string or [undefined]. *)
Definition truthy (v : option string) : bool :=
  match v with
  | Some (String _ _) => true
  | _ => false
  end.

(** [a || b] where [a] is a string or [undefined] and [b] a string. *)
Definition or_else (a : option string) (b : string) : string :=
  match a with
  | Some (String c s) => String c s
  | _ => b
  end.

(** Template-literal rendering of a non-negative integer. *)
Definition show (n : N) : string := pretty n.

End Js.

(** ** Data held by the platform services *)

(** A user record of the identity provider.  The provider keeps the
    credential; the handlers never read it back. *)
Record UserRecord := {
  ur_uid : string;
  ur_email : string;
  ur_displayName : string;
  ur_password : string
}.

(** A document of the [users] collection. *)
Record UserDoc := {
  email : string;
  displayName : string;
  createdAt : N;
  uploads : Z
}.

(** A document of the [files] collection. *)
Record FileDoc := {
  userId : string;
  fileName : string;
  storagePath : string;
  fileSize : N;
  mimeType : string;
  publicUrl : string;
  uploadedAt : N
}.

(** An object of the storage bucket, with the metadata the upload sets. *)
Record StoredObject := {
  so_data : string;
  so_contentType : string;
  so_uploadedBy : string;
  so_originalName : string;
  so_public : bool
}.

(** The file multer hands to the upload handler ([req.file]). *)
Record File := {
  originalname : string;
  mimetype : string;
  size : N;
  buffer : string
}.

Record World := {
  auth : list UserRecord;
  users : gmap string UserDoc;
  files : gmap string FileDoc;
  bucket : gmap string StoredObject;
  bucket_name : string
}.

Definition set_auth (a : list UserRecord) (w : World) : World :=
  {| auth := a; users := users w; files := files w; bucket := bucket w;
     bucket_name := bucket_name w |}.
Definition set_users (u : gmap string UserDoc) (w : World) : World :=
  {| auth := auth w; users := u; files := files w; bucket := bucket w;
     bucket_name := bucket_name w |}.
Definition set_files (f : gmap string FileDoc) (w : World) : World :=
  {| auth := auth w; users := users w; files := f; bucket := bucket w;
     bucket_name := bucket_name w |}.
Definition set_bucket (b : gmap string StoredObject) (w : World) : World :=
  {| auth := auth w; users := users w; files := files w; bucket := b;
     bucket_name := bucket_name w |}.

(** ** Platform calls, errors and the environment of one request *)

(** The SDK methods the handlers call. *)
Inductive Op :=
| AuthCreateUser | AuthGetUserByEmail | AuthCreateCustomToken | AuthGetUser
| UsersSet | UsersGet | UsersUpdate
| FilesAdd | FilesGet | FilesQuery | FilesDelete
| BucketWrite | BucketMakePublic | BucketDelete.

Global Instance Op_eq_dec : EqDecision Op.
Proof. solve_decision. Defined.

(** Why a platform call was rejected. *)
Inductive Err :=
| Unavailable (o : Op)       (* the service did not carry out the call *)
| InvalidEmail
| WeakPassword
| EmailAlreadyExists
| UidAlreadyExists
| UserNotFound
| DocumentExists
| DocumentNotFound
| InvalidDocumentPath
| ObjectNotFound.

(** What one request gets from outside the handler: which platform calls
    the services reject on their own account, the two clocks, and the
    identifiers the services would assign. *)
Record Env := {
  faults : Op -> bool;
  date_now : N;             (* Date.now() of the server process *)
  server_time : N;          (* FieldValue.serverTimestamp() *)
  new_uid : string;         (* uid the identity provider assigns *)
  new_doc_id : string       (* id the document store assigns on add *)
}.

Definition no_faults : Op -> bool := fun _ => false.

(** ** The handler monad *)

Record St := { world : World; calls : list Op }.

Definition M (A : Type) : Type := St -> (Err + A) * St.

Definition ret {A} (a : A) : M A := fun s => (inr a, s).

Definition bind {A B} (m : M A) (k : A -> M B) : M B :=
  fun s =>
    match m s with
    | (inl e, s') => (inl e, s')
    | (inr a, s') => k a s'
    end.

Definition throw {A} (e : Err) : M A := fun s => (inl e, s).

(** [try { m } catch (e) { ... }]: the outcome of [m] as a value. *)
Definition try_ {A} (m : M A) : M (Err + A) :=
  fun s => let '(r, s') := m s in (inr r, s').

Definition get_world : M World := fun s => (inr (world s), s).

Definition modify_world (f : World -> World) : M unit :=
  fun s => (inr tt, {| world := f (world s); calls := calls s |}).

(** Every platform call is logged, then rejected if the environment says
    so. *)
Definition call (env : Env) (o : Op) : M unit :=
  fun s =>
    let s' := {| world := world s; calls := calls s ++ [o] |} in
    if faults env o then (inl (Unavailable o), s') else (inr tt, s').

Notation "'let!' x ':=' m 'in' k" := (bind m (fun x => k))
  (at level 10, x name, m at level 100, k at level 200).
Notation "'do!' m 'in' k" := (bind m (fun _ => k))
  (at level 10, m at level 100, k at level 200).

(** ** The platform services

    The services are not part of server.js.  Each SDK call is modelled by
    its documented effect on the service it addresses, and is atomic: it
    either takes effect as a whole or is rejected and changes nothing.  A
    call is rejected for the reasons the SDK gives (an e-mail already in
    use, a missing document or object, ...) or because the environment of
    the request says so, which stands for every outside cause (network,
    quota, permissions).  The identity provider's normalisation of e-mail
    addresses is not modelled. *)

Module Platform.

Definition find_uid (a : list UserRecord) (uid : string) : option UserRecord :=
  List.find (fun u => bool_decide (ur_uid u = uid)) a.

Definition find_email (a : list UserRecord) (e : string) : option UserRecord :=
  List.find (fun u => bool_decide (ur_email u = e)) a.

(** The SDK's e-mail check: one ['@'] with text on both sides. *)
Definition valid_email (e : string) : bool :=
  match Js.split "@" e with
  | [a; b] => negb (bool_decide (a = "")) && negb (bool_decide (b = ""))
  | _ => false
  end.

(** The SDK's password check: at least six characters. *)
Definition valid_password (p : string) : bool :=
  (6 <=? String.length p)%nat.

(** [admin.auth().createUser({email, password, displayName})] *)
Definition createUser (env : Env) (e p dn : string) : M UserRecord :=
  do! call env AuthCreateUser in
  let! w := get_world in
  if negb (valid_email e) then throw InvalidEmail
  else if negb (valid_password p) then throw WeakPassword
  else if bool_decide (is_Some (find_email (auth w) e)) then throw EmailAlreadyExists
  else if bool_decide (is_Some (find_uid (auth w) (new_uid env))) then throw UidAlreadyExists
  else
    let u := {| ur_uid := new_uid env; ur_email := e; ur_displayName := dn;
                ur_password := p |} in
    do! modify_world (set_auth (auth w ++ [u])) in
    ret u.

(** [admin.auth().getUserByEmail(email)] *)
Definition getUserByEmail (env : Env) (e : string) : M UserRecord :=
  do! call env AuthGetUserByEmail in
  let! w := get_world in
  match find_email (auth w) e with
  | Some u => ret u
  | None => throw UserNotFound
  end.

(** [admin.auth().getUser(uid)] *)
Definition getUser (env : Env) (uid : string) : M UserRecord :=
  do! call env AuthGetUser in
  let! w := get_world in
  match find_uid (auth w) uid with
  | Some u => ret u
  | None => throw UserNotFound
  end.

(** A custom token: the uid it was minted for and its issue time. *)
Inductive Token := CustomToken (uid : string) (iat : N).

(** [admin.auth().createCustomToken(uid)] *)
Definition createCustomToken (env : Env) (uid : string) : M Token :=
  do! call env AuthCreateCustomToken in
  ret (CustomToken uid (date_now env)).

(** [db.collection('users').doc(uid).set(doc)] *)
Definition users_set (env : Env) (uid : string) (d : UserDoc) : M unit :=
  do! call env UsersSet in
  let! w := get_world in
  modify_world (set_users (<[uid := d]> (users w))).

(** [db.collection('users').doc(uid).get()] then [.data()] *)
Definition users_get (env : Env) (uid : string) : M (option UserDoc) :=
  do! call env UsersGet in
  let! w := get_world in
  ret (users w !! uid).

Definition add_uploads (delta : Z) (d : UserDoc) : UserDoc :=
  {| email := email d; displayName := displayName d;
     createdAt := createdAt d; uploads := (uploads d + delta)%Z |}.

(** [db.collection('users').doc(uid).update({uploads: increment(delta)})];
    an update of a missing document is rejected. *)
Definition users_increment (env : Env) (uid : string) (delta : Z) : M unit :=
  do! call env UsersUpdate in
  let! w := get_world in
  match users w !! uid with
  | Some d => modify_world (set_users (<[uid := add_uploads delta d]> (users w)))
  | None => throw DocumentNotFound
  end.

(** What [db.collection('files').doc(path)] refers to: a document of the
    collection itself, or a document of a collection nested below one,
    where this program never writes. *)
Inductive DocRef := TopDoc (id : string) | SubDoc.

(** [db.collection('files').doc(documentPath)], which calls no service.
    The SDK throws on an empty path and on one with ['//']; it splits the
    path at ['/'], drops empty segments (a slash at either end), and throws
    unless the segments, counted with ['files'], are even in number. *)
Definition doc_ref (documentPath : string) : Err + DocRef :=
  if bool_decide (documentPath = "") || Js.includes "//" documentPath
  then inl InvalidDocumentPath
  else
    match List.filter (fun seg => negb (bool_decide (seg = "")))
                      (Js.split "/" documentPath) with
    | [id] => inr (TopDoc id)
    | segs =>
        if Nat.even (length segs) then inl InvalidDocumentPath else inr SubDoc
    end.

Definition files_doc (documentPath : string) : M DocRef :=
  match doc_ref documentPath with
  | inl e => throw e
  | inr r => ret r
  end.

(** [id] is the id of a document of [files]: it refers to that document
    and nothing else does the work of a path in it. *)
Definition is_doc_id (id : string) : bool :=
  match doc_ref id with
  | inr (TopDoc k) => bool_decide (k = id)
  | _ => false
  end.

(** [db.collection('files').add(doc)]: creates the document under the id
    the store assigns and returns that id.  The store assigns document
    ids; an environment offering anything else has the call rejected. *)
Definition files_add (env : Env) (d : FileDoc) : M string :=
  do! call env FilesAdd in
  let! w := get_world in
  if negb (is_doc_id (new_doc_id env)) then throw InvalidDocumentPath
  else
    match files w !! new_doc_id env with
    | Some _ => throw DocumentExists
    | None =>
        do! modify_world (set_files (<[new_doc_id env := d]> (files w))) in
        ret (new_doc_id env)
    end.

(** The document a reference names, if there is one. *)
Definition lookup_ref (fs : gmap string FileDoc) (r : DocRef) : option FileDoc :=
  match r with
  | TopDoc id => fs !! id
  | SubDoc => None
  end.

Definition delete_ref (r : DocRef) (fs : gmap string FileDoc)
    : gmap string FileDoc :=
  match r with
  | TopDoc id => delete id fs
  | SubDoc => fs
  end.

(** [ref.get()]; [None] is [!fileDoc.exists]. *)
Definition files_get (env : Env) (r : DocRef) : M (option FileDoc) :=
  do! call env FilesGet in
  let! w := get_world in
  ret (lookup_ref (files w) r).

(** [ref.delete()] *)
Definition files_delete (env : Env) (r : DocRef) : M unit :=
  do! call env FilesDelete in
  let! w := get_world in
  modify_world (set_files (delete_ref r (files w))).

(** Order of a [desc] query on [uploadedAt]: later documents first. *)
Definition newer_first (a b : string * FileDoc) : Prop :=
  (uploadedAt (snd b) <= uploadedAt (snd a))%N.

Global Instance newer_first_dec a b : Decision (newer_first a b).
Proof. unfold newer_first. apply _. Defined.

(** [.where('userId', '==', uid).orderBy('uploadedAt', 'desc').get()].
    The order among documents with the same [uploadedAt] is the store's;
    here it is whatever the sort makes of the map's enumeration. *)
Definition files_query (env : Env) (uid : string) : M (list (string * FileDoc)) :=
  do! call env FilesQuery in
  let! w := get_world in
  ret (merge_sort newer_first
         (map_to_list (filter (fun kv => userId (snd kv) = uid) (files w)))).

(** [fileUpload.createWriteStream(...)] followed by [stream.end(buffer)]:
    the object appears when the stream finishes; writing to a path in use
    replaces the object there. *)
Definition bucket_write (env : Env) (path : string) (o : StoredObject) : M unit :=
  do! call env BucketWrite in
  let! w := get_world in
  modify_world (set_bucket (<[path := o]> (bucket w))).

Definition make_public (o : StoredObject) : StoredObject :=
  {| so_data := so_data o; so_contentType := so_contentType o;
     so_uploadedBy := so_uploadedBy o; so_originalName := so_originalName o;
     so_public := true |}.

(** [fileUpload.makePublic()] *)
Definition bucket_makePublic (env : Env) (path : string) : M unit :=
  do! call env BucketMakePublic in
  let! w := get_world in
  match bucket w !! path with
  | Some o => modify_world (set_bucket (<[path := make_public o]> (bucket w)))
  | None => throw ObjectNotFound
  end.

(** [bucket.file(path).delete()] *)
Definition bucket_delete (env : Env) (path : string) : M unit :=
  do! call env BucketDelete in
  let! w := get_world in
  match bucket w !! path with
  | Some _ => modify_world (set_bucket (delete path (bucket w)))
  | None => throw ObjectNotFound
  end.

End Platform.

(** ** Requests and responses *)

(** The JSON bodies the handlers send. *)
Inductive Body :=
| BError (msg : string)                          (* { error } *)
| BErrorOf (e : Err)                             (* { error: error.message } *)
| BErrorDetails (msg details : string)           (* { error, details } *)
| BSignup (uid email displayName : string)       (* { message, user } *)
| BLogin (customToken : Platform.Token) (uid email displayName : string)
         (uploads : Z)                           (* { message, customToken, uid, user } *)
| BUpload (id name : string) (size : N) (url type : string)
                                                 (* { message, file } *)
| BFiles (count : nat) (files : list (string * FileDoc))
                                                 (* { count, files } *)
| BMessage (msg : string)                        (* { message } *)
| BFileTooLarge.                                 (* multer's error, default handler *)

Record Response := { status : nat; body : Body }.

(** [req.body] of the two authentication routes; a field is a string or
    absent. *)
Record AuthBody := {
  b_email : option string;
  b_password : option string;
  b_displayName : option string
}.

(** [req.user], set by [verifyToken]. *)
Record ReqUser := { uid : string; user_email : string }.

(** What a handler leaves behind: the response it sent, if it sent one,
    the services, and the platform calls it made. *)
Record Outcome := {
  response : option Response;
  after : World;
  trace : list Op
}.

Definition run (m : M (option Response)) (w : World) : Outcome :=
  match m {| world := w; calls := [] |} with
  | (inr r, s) => {| response := r; after := world s; trace := calls s |}
  | (inl _, s) => {| response := None; after := world s; trace := calls s |}
  end.

Definition send (st : nat) (b : Body) : M (option Response) :=
  ret (Some {| status := st; body := b |}).

(** ** The handlers of server.js *)

(** [const upload = multer({ limits: { fileSize: 5 * 1024 * 1024 } })] *)
Definition fileSize_limit : N := 5 * 1024 * 1024.

(** POST /api/auth/signup *)
Definition signup (env : Env) (req : AuthBody) : M (option Response) :=
  if negb (Js.truthy (b_email req)) || negb (Js.truthy (b_password req))
  then send 400 (BError "Email and password are required")
  else
    let email := default "" (b_email req) in
    let password := default "" (b_password req) in
    let! r := try_ (
      let! userRecord :=
        Platform.createUser env email password
          (Js.or_else (b_displayName req)
                      (default "" (Js.index (Js.split "@" email) 0))) in
      do! Platform.users_set env (ur_uid userRecord)
            {| email := email;
               displayName :=
                 Js.or_else (b_displayName req)
                            (default "" (Js.index (Js.split "@" email) 0));
               createdAt := server_time env;
               uploads := 0 |} in
      send 201 (BSignup (ur_uid userRecord) (ur_email userRecord)
                        (ur_displayName userRecord))) in
    match r with
    | inr resp => ret resp
    | inl error => send 400 (BErrorOf error)
    end.

(** POST /api/auth/login *)
Definition login (env : Env) (req : AuthBody) : M (option Response) :=
  if negb (Js.truthy (b_email req)) || negb (Js.truthy (b_password req))
  then send 400 (BError "Email and password are required")
  else
    let email := default "" (b_email req) in
    let! r := try_ (
      let! userRecord := Platform.getUserByEmail env email in
      let! customToken := Platform.createCustomToken env (ur_uid userRecord) in
      let! userData := Platform.users_get env (ur_uid userRecord) in
      send 200 (BLogin customToken (ur_uid userRecord) (ur_email userRecord)
                  (Js.or_else (displayName <$> userData) (ur_email userRecord))
                  (default 0%Z (uploads <$> userData)))) in
    match r with
    | inr resp => ret resp
    | inl _ => send 401 (BError "Invalid credentials")
    end.

(** The [verifyToken] middleware, with the rest of the route as [next]. *)
Definition verifyToken (env : Env) (authHeader : option string)
    (next : ReqUser -> M (option Response)) : M (option Response) :=
  if negb (Js.truthy authHeader)
  then send 401 (BError "No authorization header provided")
  else
    let token := Js.index (Js.split "Bearer " (default "" authHeader)) 1 in
    if negb (Js.truthy token)
    then send 401 (BError "No token provided")
    else
      let! r := try_ (Platform.getUser env (default "" token)) in
      match r with
      | inr userRecord =>
          next {| uid := ur_uid userRecord; user_email := ur_email userRecord |}
      | inl _ =>
          send 401 (BErrorDetails "Invalid or expired token" "Please login again")
      end.

(** The [upload.single('file')] middleware: a file that reaches the limit
    never reaches the handler. *)
Definition upload_single (file : option File)
    (next : option File -> M (option Response)) : M (option Response) :=
  match file with
  | Some f =>
      if (fileSize_limit <=? size f)%N then send 500 BFileTooLarge
      else next (Some f)
  | None => next None
  end.

(** [`uploads/${req.user.uid}/${Date.now()}_${file.originalname}`] *)
Definition upload_path (uid : string) (now : N) (originalname : string) : string :=
  "uploads/" +:+ uid +:+ "/" +:+ (Js.show now +:+ "_" +:+ originalname).

(** The listener of the stream's 'finish' event.  [name] is
    [fileUpload.name], the path the object was written to. *)
Definition upload_finish (env : Env) (user : ReqUser) (file : File)
    (name : string) : M (option Response) :=
  do! Platform.bucket_makePublic env name in
  let! w := get_world in
  let publicUrl :=
    "https://storage.googleapis.com/" +:+ bucket_name w +:+ "/" +:+ name in
  let! fileDoc_id :=
    Platform.files_add env
      {| userId := uid user;
         fileName := originalname file;
         storagePath := name;
         fileSize := size file;
         mimeType := mimetype file;
         publicUrl := publicUrl;
         uploadedAt := server_time env |} in
  do! Platform.users_increment env (uid user) 1 in
  send 200 (BUpload fileDoc_id (originalname file) (size file) publicUrl
              (mimetype file)).

(** POST /api/upload, after the two middlewares.  The stream either emits
    'error', whose listener answers 500, or 'finish', whose listener is an
    async function nobody awaits: when a call inside it is rejected the
    listener stops there and no response is sent. *)
Definition upload_handler (env : Env) (user : ReqUser) (file : option File)
    : M (option Response) :=
  match file with
  | None => send 400 (BError "No file uploaded")
  | Some file =>
      let name := upload_path (uid user) (date_now env) (originalname file) in
      let! written :=
        try_ (Platform.bucket_write env name
                {| so_data := buffer file;
                   so_contentType := mimetype file;
                   so_uploadedBy := uid user;
                   so_originalName := originalname file;
                   so_public := false |}) in
      match written with
      | inl _ => send 500 (BError "Failed to upload file")
      | inr _ =>
          let! finished := try_ (upload_finish env user file name) in
          match finished with
          | inr resp => ret resp
          | inl _ => ret None
          end
      end
  end.

Definition upload (env : Env) (authHeader : option string)
    (file : option File) : M (option Response) :=
  verifyToken env authHeader (fun user =>
    upload_single file (upload_handler env user)).

(** GET /api/files *)
Definition list_files (env : Env) (authHeader : option string)
    : M (option Response) :=
  verifyToken env authHeader (fun user =>
    let! r := try_ (
      let! filesSnapshot := Platform.files_query env (uid user) in
      send 200 (BFiles (length filesSnapshot) filesSnapshot)) in
    match r with
    | inr resp => ret resp
    | inl _ => send 500 (BError "Failed to fetch files")
    end).

(** DELETE /api/files/:fileId *)
Definition delete_file (env : Env) (authHeader : option string)
    (fileId : string) : M (option Response) :=
  verifyToken env authHeader (fun user =>
    let! r := try_ (
      let! fileDoc :=
        (let! ref := Platform.files_doc fileId in
         Platform.files_get env ref) in
      match fileDoc with
      | None => send 404 (BError "File not found")
      | Some fileData =>
          if negb (bool_decide (userId fileData = uid user))
          then send 403 (BError "Unauthorized")
          else
            do! Platform.bucket_delete env (storagePath fileData) in
            do! (let! ref := Platform.files_doc fileId in
                 Platform.files_delete env ref) in
            do! Platform.users_increment env (uid user) (-1) in
            send 200 (BMessage "File deleted successfully")
      end) in
    match r with
    | inr resp => ret resp
    | inl _ => send 500 (BError "Failed to delete file")
    end).

(** ** Sample data *)

Module Sample.

Definition w0 : World :=
  {| auth := []; users := ∅; files := ∅; bucket := ∅;
     bucket_name := "demo.appspot.com" |}.

Definition alice : AuthBody :=
  {| b_email := Some "alice@example.com"; b_password := Some "secret1";
     b_displayName := None |}.

Definition bob : AuthBody :=
  {| b_email := Some "bob@example.com"; b_password := Some "hunter22";
     b_displayName := Some "Bob" |}.

Definition a_jpg : File :=
  {| originalname := "a.jpg"; mimetype := "image/jpeg"; size := 10240;
     buffer := "JFIF" |}.

(** A request environment in which exactly the calls [o] satisfying [bad]
    are rejected by the platform. *)
Definition env_at (bad : Op -> bool) (now : N) (uid id : string) : Env :=
  {| faults := bad; date_now := now * 1000; server_time := now;
     new_uid := uid; new_doc_id := id |}.

Definition only (o : Op) : Op -> bool := fun o' => bool_decide (o' = o).

Definition alice_user : ReqUser :=
  {| uid := "u1"; user_email := "alice@example.com" |}.
Definition bob_user : ReqUser :=
  {| uid := "u2"; user_email := "bob@example.com" |}.

(** The record Alice's upload of a.jpg at time 102 creates. *)
Definition f1_doc : FileDoc :=
  {| userId := "u1"; fileName := "a.jpg";
     storagePath := "uploads/u1/102000_a.jpg"; fileSize := 10240;
     mimeType := "image/jpeg";
     publicUrl :=
       "https://storage.googleapis.com/demo.appspot.com/uploads/u1/102000_a.jpg";
     uploadedAt := 102 |}.

(** Alice's counter document with the counter at [n]. *)
Definition alice_doc (n : Z) : UserDoc :=
  {| email := "alice@example.com"; displayName := "alice"; createdAt := 100;
     uploads := n |}.

(** Alice signed up. *)
Definition w1 : World := after (run (signup (env_at no_faults 100 "u1" "") alice) w0).
(** Bob signed up too. *)
Definition w2 : World := after (run (signup (env_at no_faults 101 "u2" "") bob) w1).
(** Alice uploaded a.jpg, stored as record f1. *)
Definition w3 : World :=
  after (run (upload (env_at no_faults 102 "" "f1") (Some "Bearer u1") (Some a_jpg)) w2).

Definition b_png : File :=
  {| originalname := "b.png"; mimetype := "image/png"; size := 2048;
     buffer := "PNG" |}.

(** The record Bob's upload of a.jpg at time 103 creates. *)
Definition f2_doc : FileDoc :=
  {| userId := "u2"; fileName := "a.jpg";
     storagePath := "uploads/u2/103000_a.jpg"; fileSize := 10240;
     mimeType := "image/jpeg";
     publicUrl :=
       "https://storage.googleapis.com/demo.appspot.com/uploads/u2/103000_a.jpg";
     uploadedAt := 103 |}.

(** The record Alice's upload of b.png at time [now] creates. *)
Definition b_doc (now : N) : FileDoc :=
  {| userId := "u1"; fileName := "b.png";
     storagePath := "uploads/u1/" +:+ pretty (now * 1000)%N +:+ "_b.png";
     fileSize := 2048; mimeType := "image/png";
     publicUrl :=
       "https://storage.googleapis.com/demo.appspot.com/uploads/u1/"
       +:+ pretty (now * 1000)%N +:+ "_b.png";
     uploadedAt := now |}.

(** Bob uploaded a.jpg, stored as record f2. *)
Definition w4 : World :=
  after (run (upload (env_at no_faults 103 "" "f2") (Some "Bearer u2") (Some a_jpg)) w3).
(** Alice uploaded b.png, stored as record f0. *)
Definition w5 : World :=
  after (run (upload (env_at no_faults 104 "" "f0") (Some "Bearer u1") (Some b_png)) w4).
(** Alice uploaded b.png again, stored as record f9. *)
Definition w6 : World :=
  after (run (upload (env_at no_faults 105 "" "f9") (Some "Bearer u1") (Some b_png)) w5).

(** Alice's upload lost its counter update; then she deleted the file. *)
Definition w_uncounted : World :=
  after (run (upload (env_at (only UsersUpdate) 102 "" "f1") (Some "Bearer u1")
                (Some a_jpg)) w1).
Definition w_negative : World :=
  after (run (delete_file (env_at no_faults 103 "" "") (Some "Bearer u1") "f1")
           w_uncounted).

End Sample.

(** ** Who a request is from *)

(** The token [verifyToken] reads out of the Authorization header. *)
Definition bearer (authHeader : option string) : option string :=
  if Js.truthy authHeader
  then
    let token := Js.index (Js.split "Bearer " (default "" authHeader)) 1 in
    if Js.truthy token then token else None
  else None.

(** The principal [verifyToken] resolves a request to, when it lets the
    request through. *)
Definition principal (env : Env) (w : World) (authHeader : option string)
    : option ReqUser :=
  match bearer authHeader with
  | Some token =>
      if faults env AuthGetUser then None
      else
        (fun u => {| uid := ur_uid u; user_email := ur_email u |})
          <$> Platform.find_uid (auth w) token
  | None => None
  end.

(** ** Tactics for stepping through the monad *)

Ltac unfold_monad :=
  unfold send, bind, ret, throw, try_, get_world, modify_world, call in *.

Ltac unfold_platform :=
  unfold Platform.createUser, Platform.getUserByEmail, Platform.getUser,
    Platform.createCustomToken, Platform.users_set, Platform.users_get,
    Platform.users_increment, Platform.files_add, Platform.files_doc,
    Platform.files_get,
    Platform.files_delete, Platform.files_query, Platform.bucket_write,
    Platform.bucket_makePublic, Platform.bucket_delete in *.

(** ** Stages of an upload *)

(** The record create is rejected: by the platform, because what the
    environment offers is no document id, or because the id is taken. *)
Definition record_create_fails (env : Env) (w : World) : bool :=
  faults env FilesAdd || negb (Platform.is_doc_id (new_doc_id env))
  || bool_decide (is_Some (files w !! new_doc_id env)).

(** The counter update is rejected: by the platform, or because the
    principal has no [users] document. *)
Definition counter_update_fails (env : Env) (w : World) (user : ReqUser) : bool :=
  faults env UsersUpdate || bool_decide (users w !! uid user = None).

(** The object an upload writes, once made public. *)
Definition uploaded_object (user : ReqUser) (file : File) : StoredObject :=
  {| so_data := buffer file; so_contentType := mimetype file;
     so_uploadedBy := uid user; so_originalName := originalname file;
     so_public := true |}.

(** The record an upload creates. *)
Definition uploaded_record (env : Env) (w : World) (user : ReqUser)
    (file : File) : FileDoc :=
  let name := upload_path (uid user) (date_now env) (originalname file) in
  {| userId := uid user; fileName := originalname file; storagePath := name;
     fileSize := size file; mimeType := mimetype file;
     publicUrl :=
       "https://storage.googleapis.com/" +:+ bucket_name w +:+ "/" +:+ name;
     uploadedAt := server_time env |}.

(** The upload got as far as a stored, public object. *)
Definition object_written (env : Env) (w : World) (h : option string)
    (user : ReqUser) (file : File) : Prop :=
  principal env w h = Some user /\
  (size file < fileSize_limit)%N /\
  faults env BucketWrite = false /\
  faults env BucketMakePublic = false.

(** C4 as the specification has it, as far as the report goes: the answer
    to a rejected object delete tells that stage apart from a rejected
    record delete. *)
Definition object_delete_failure_named (w : World) (h : option string)
    (fileId : string) (env_object env_record : Env) : Prop :=
  response (run (delete_file env_object h fileId) w)
    <> response (run (delete_file env_record h fileId) w).

(** C1 as the specification has it, in its weakest reading: after a failed
    record create the run has at least tried to delete the object or sent
    some response that could name it. *)
Definition record_failure_accounted (env : Env) (w : World)
    (h : option string) (file : File) : Prop :=
  forall user,
    object_written env w h user file ->
    record_create_fails env w = true ->
    let o := run (upload env h (Some file)) w in
    In BucketDelete (trace o) \/ is_Some (response o).

(** C2 as the specification has it: a failed counter update still ends in
    the success response. *)
Definition counter_failure_reports_success (env : Env) (w : World)
    (h : option string) (file : File) : Prop :=
  forall user,
    object_written env w h user file ->
    record_create_fails env w = false ->
    counter_update_fails env w user = true ->
    let o := run (upload env h (Some file)) w in
    exists url,
      response o =
        Some {| status := 200;
                body := BUpload (new_doc_id env) (originalname file)
                          (size file) url (mimetype file) |}.

(** ** Display names and request bodies *)

Definition At : ascii := "@"%char.

(** [name] is the part of [email] before its first ['@']. *)
Definition before_first_at (email name : string) : Prop :=
  (exists rest, email = name +:+ String At rest) /\
  (forall c, In c (list_ascii_of_string name) -> c <> At).

(** A signup request that leaves [displayName] out. *)
Definition signup_without_name (email password : string) : AuthBody :=
  {| b_email := Some email; b_password := Some password;
     b_displayName := None |}.

Definition login_body (email password : string) : AuthBody :=
  {| b_email := Some email; b_password := Some password;
     b_displayName := None |}.

(** The response of a login that went through for the user record [u]. *)
Definition login_ok (env : Env) (w : World) (u : UserRecord) : Response :=
  {| status := 200;
     body :=
       BLogin (Platform.CustomToken (ur_uid u) (date_now env))
         (ur_uid u) (ur_email u)
         (Js.or_else (displayName <$> users w !! ur_uid u) (ur_email u))
         (default 0%Z (uploads <$> users w !! ur_uid u)) |}.

(** ** Outcomes stage by stage *)

(** The counter document an update of [uid]'s counter finds, if the update
    goes through. *)
Definition counter_doc (env : Env) (w : World) (uid : string) : option UserDoc :=
  if faults env UsersUpdate then None else users w !! uid.

(** The outcome of an upload that passed both middlewares, stage by stage. *)
Definition upload_outcome (env : Env) (w : World) (user : ReqUser)
    (file : File) : Outcome :=
  let name := upload_path (uid user) (date_now env) (originalname file) in
  if faults env BucketWrite then
    {| response := Some {| status := 500; body := BError "Failed to upload file" |};
       after := w; trace := [AuthGetUser; BucketWrite] |}
  else if faults env BucketMakePublic then
    {| response := None;
       after := set_bucket
                  (<[name := {| so_data := buffer file;
                                so_contentType := mimetype file;
                                so_uploadedBy := uid user;
                                so_originalName := originalname file;
                                so_public := false |}]> (bucket w)) w;
       trace := [AuthGetUser; BucketWrite; BucketMakePublic] |}
  else
    let w1 := set_bucket (<[name := uploaded_object user file]> (bucket w)) w in
    if record_create_fails env w then
      {| response := None; after := w1;
         trace := [AuthGetUser; BucketWrite; BucketMakePublic; FilesAdd] |}
    else
      let doc := uploaded_record env w user file in
      let w2 := set_files (<[new_doc_id env := doc]> (files w)) w1 in
      match counter_doc env w (uid user) with
      | None =>
          {| response := None; after := w2;
             trace := [AuthGetUser; BucketWrite; BucketMakePublic; FilesAdd;
                       UsersUpdate] |}
      | Some d =>
          {| response :=
               Some {| status := 200;
                       body := BUpload (new_doc_id env) (originalname file)
                                 (size file) (publicUrl doc) (mimetype file) |};
             after := set_users
                        (<[uid user := Platform.add_uploads 1 d]> (users w)) w2;
             trace := [AuthGetUser; BucketWrite; BucketMakePublic; FilesAdd;
                       UsersUpdate] |}
      end.

(** The outcome of a delete that passed [verifyToken] and whose id refers
    to the document [fileId] of [files], stage by stage. *)
Definition delete_outcome (env : Env) (w : World) (user : ReqUser)
    (fileId : string) : Outcome :=
  let failed := Some {| status := 500; body := BError "Failed to delete file" |} in
  if faults env FilesGet then
    {| response := failed; after := w; trace := [AuthGetUser; FilesGet] |}
  else
    match files w !! fileId with
    | None =>
        {| response := Some {| status := 404; body := BError "File not found" |};
           after := w; trace := [AuthGetUser; FilesGet] |}
    | Some fileData =>
        if negb (bool_decide (userId fileData = uid user)) then
          {| response := Some {| status := 403; body := BError "Unauthorized" |};
             after := w; trace := [AuthGetUser; FilesGet] |}
        else if faults env BucketDelete
                || bool_decide (bucket w !! storagePath fileData = None) then
          {| response := failed; after := w;
             trace := [AuthGetUser; FilesGet; BucketDelete] |}
        else
          let w1 := set_bucket (delete (storagePath fileData) (bucket w)) w in
          if faults env FilesDelete then
            {| response := failed; after := w1;
               trace := [AuthGetUser; FilesGet; BucketDelete; FilesDelete] |}
          else
            let w2 := set_files (delete fileId (files w)) w1 in
            match counter_doc env w (uid user) with
            | None =>
                {| response := failed; after := w2;
                   trace := [AuthGetUser; FilesGet; BucketDelete; FilesDelete;
                             UsersUpdate] |}
            | Some d =>
                {| response :=
                     Some {| status := 200;
                             body := BMessage "File deleted successfully" |};
                   after := set_users
                              (<[uid user := Platform.add_uploads (-1) d]> (users w))
                              w2;
                   trace := [AuthGetUser; FilesGet; BucketDelete; FilesDelete;
                             UsersUpdate] |}
            end
    end.

(** The outcome of a delete that passed [verifyToken], whatever its id. *)
Definition delete_result (env : Env) (w : World) (user : ReqUser)
    (fileId : string) : Outcome :=
  let failed := Some {| status := 500; body := BError "Failed to delete file" |} in
  match Platform.doc_ref fileId with
  | inl _ => {| response := failed; after := w; trace := [AuthGetUser] |}
  | inr Platform.SubDoc =>
      {| response :=
           if faults env FilesGet then failed
           else Some {| status := 404; body := BError "File not found" |};
         after := w; trace := [AuthGetUser; FilesGet] |}
  | inr (Platform.TopDoc key) => delete_outcome env w user key
  end.

(** ** Storage paths *)

(** [s] has no occurrence of the character [c]. *)
Definition lacks (c : ascii) (s : string) : bool :=
  forallb (fun x => negb (Ascii.eqb x c)) (list_ascii_of_string s).

(** The upload was answered 200. *)
Definition succeeded (o : Outcome) : Prop :=
  exists r, response o = Some r /\ status r = 200.

(** C3 as the specification has it: the records of any two successful
    uploads, one after the other, name different storage paths. *)
Definition paths_always_distinct (w : World)
    (env1 : Env) (h1 : option string) (file1 : File)
    (env2 : Env) (h2 : option string) (file2 : File) : Prop :=
  let o1 := run (upload env1 h1 (Some file1)) w in
  let o2 := run (upload env2 h2 (Some file2)) (after o1) in
  succeeded o1 -> succeeded o2 ->
  forall d1 d2,
    files (after o2) !! new_doc_id env1 = Some d1 ->
    files (after o2) !! new_doc_id env2 = Some d2 ->
    storagePath d1 <> storagePath d2.

(** ** Listings *)

(** What [GET /api/files] returns for [uid]: the query result. *)
Definition listing (w : World) (uid : string) : list (string * FileDoc) :=
  merge_sort Platform.newer_first
    (map_to_list (filter (fun kv => userId (snd kv) = uid) (files w))).

(** ** Sequences of requests *)

Inductive Request :=
| Signup (body : AuthBody)
| Login (body : AuthBody)
| Upload (authHeader : option string) (file : option File)
| ListFiles (authHeader : option string)
| DeleteFile (authHeader : option string) (fileId : string).

(** The router. *)
Definition handle (env : Env) (req : Request) : M (option Response) :=
  match req with
  | Signup b => signup env b
  | Login b => login env b
  | Upload h f => upload env h f
  | ListFiles h => list_files env h
  | DeleteFile h id => delete_file env h id
  end.

(** The services before the first request. *)
Definition initial (name : string) : World :=
  {| auth := []; users := ∅; files := ∅; bucket := ∅; bucket_name := name |}.

(** The states the services go through when requests are handled one after
    the other, each in an environment that [allowed] admits. *)
Inductive reachable (allowed : Env -> Request -> bool) : World -> Prop :=
| reachable_initial name : reachable allowed (initial name)
| reachable_step env req w :
    reachable allowed w ->
    allowed env req = true ->
    reachable allowed (after (run (handle env req) w)).

Definition any_env : Env -> Request -> bool := fun _ _ => true.



(** The number of [files] records owned by [uid]. *)
Definition owned (fs : gmap string FileDoc) (uid : string) : nat :=
  base.size (filter (fun kv => userId (snd kv) = uid) fs).




(** ** Signup and login stage by stage *)

(** The display name a signup request asks for. *)
Definition requested_name (req : AuthBody) (email : string) : string :=
  Js.or_else (b_displayName req) (default "" (Js.index (Js.split "@" email) 0)).

(** The identity record a signup creates. *)
Definition new_record (env : Env) (e p dn : string) : UserRecord :=
  {| ur_uid := new_uid env; ur_email := e; ur_displayName := dn;
     ur_password := p |}.

(** The [users] document a signup stores. *)
Definition new_doc (env : Env) (e dn : string) : UserDoc :=
  {| email := e; displayName := dn; createdAt := server_time env;
     uploads := 0 |}.

(** The outcome of a signup whose e-mail and password passed the first
    check, stage by stage. *)
Definition signup_outcome (env : Env) (w : World) (e p dn : string) : Outcome :=
  let refused (err : Err) :=
    {| response := Some {| status := 400; body := BErrorOf err |};
       after := w; trace := [AuthCreateUser] |} in
  if faults env AuthCreateUser then refused (Unavailable AuthCreateUser)
  else if negb (Platform.valid_email e) then refused InvalidEmail
  else if negb (Platform.valid_password p) then refused WeakPassword
  else if bool_decide (is_Some (Platform.find_email (auth w) e))
  then refused EmailAlreadyExists
  else if bool_decide (is_Some (Platform.find_uid (auth w) (new_uid env)))
  then refused UidAlreadyExists
  else
    let w1 := set_auth (auth w ++ [new_record env e p dn]) w in
    if faults env UsersSet then
      {| response :=
           Some {| status := 400; body := BErrorOf (Unavailable UsersSet) |};
         after := w1; trace := [AuthCreateUser; UsersSet] |}
    else
      {| response := Some {| status := 201; body := BSignup (new_uid env) e dn |};
         after := set_users (<[new_uid env := new_doc env e dn]> (users w)) w1;
         trace := [AuthCreateUser; UsersSet] |}.

(** The outcome of a login whose e-mail and password passed the first
    check, stage by stage. *)
Definition login_outcome (env : Env) (w : World) (e : string) : Outcome :=
  let refused :=
    Some {| status := 401; body := BError "Invalid credentials" |} in
  if faults env AuthGetUserByEmail then
    {| response := refused; after := w; trace := [AuthGetUserByEmail] |}
  else
    match Platform.find_email (auth w) e with
    | None => {| response := refused; after := w; trace := [AuthGetUserByEmail] |}
    | Some u =>
        if faults env AuthCreateCustomToken then
          {| response := refused; after := w;
             trace := [AuthGetUserByEmail; AuthCreateCustomToken] |}
        else if faults env UsersGet then
          {| response := refused; after := w;
             trace := [AuthGetUserByEmail; AuthCreateCustomToken; UsersGet] |}
        else
          {| response := Some (login_ok env w u); after := w;
             trace := [AuthGetUserByEmail; AuthCreateCustomToken; UsersGet] |}
    end.

(** The Authorization header of a request to a protected route. *)
Definition protected_header (req : Request) : option (option string) :=
  match req with
  | Upload h _ | ListFiles h | DeleteFile h _ => Some h
  | Signup _ | Login _ => None
  end.

(** What [verifyToken] answers a request it turns away. *)
Definition refusal (w : World) (h : option string) : Outcome :=
  if negb (Js.truthy h) then
    {| response :=
         Some {| status := 401; body := BError "No authorization header provided" |};
       after := w; trace := [] |}
  else
    match bearer h with
    | None =>
        {| response := Some {| status := 401; body := BError "No token provided" |};
           after := w; trace := [] |}
    | Some _ =>
        {| response :=
             Some {| status := 401;
                     body := BErrorDetails "Invalid or expired token"
                               "Please login again" |};
           after := w; trace := [AuthGetUser] |}
    end.

(** The answer of both authentication routes to a body without e-mail or
    password. *)
Definition fields_required (w : World) : Outcome :=
  {| response :=
       Some {| status := 400; body := BError "Email and password are required" |};
     after := w; trace := [] |}.

(** A signup or login body with all three fields in place. *)
Definition auth_body (e p : string) (dn : option string) : AuthBody :=
  {| b_email := Some e; b_password := Some p; b_displayName := dn |}.

(** The answer of a signup the identity provider refused with [err]. *)
Definition signup_refused (w : World) (err : Err) : Outcome :=
  {| response := Some {| status := 400; body := BErrorOf err |};
     after := w; trace := [AuthCreateUser] |}.

(** The request was answered with status [st]. *)
Definition succeeded_with (st : nat) (o : Outcome) : Prop :=
  exists r, response o = Some r /\ status r = st.

(** The delete, asked with the id of the record [doc], got as far as
    removing the record's object. *)
Definition object_deleted (env : Env) (w : World) (h : option string)
    (user : ReqUser) (fileId : string) (doc : FileDoc) : Prop :=
  Platform.is_doc_id fileId = true /\
  principal env w h = Some user /\
  faults env FilesGet = false /\
  files w !! fileId = Some doc /\
  userId doc = uid user /\
  faults env BucketDelete = false /\
  is_Some (bucket w !! storagePath doc).

(** The answer of a delete that failed at some stage. *)
Definition delete_failed : option Response :=
  Some {| status := 500; body := BError "Failed to delete file" |}.

(** ** One request as a transition *)

(** The object an upload writes, before ([pub = false]) and after
    ([pub = true]) [makePublic]. *)
Definition written_object (user : ReqUser) (file : File) (pub : bool)
    : StoredObject :=
  {| so_data := buffer file; so_contentType := mimetype file;
     so_uploadedBy := uid user; so_originalName := originalname file;
     so_public := pub |}.

(** The services after the stages of an upload. *)
Definition with_object (env : Env) (user : ReqUser) (file : File) (pub : bool)
    (w : World) : World :=
  set_bucket
    (<[upload_path (uid user) (date_now env) (originalname file)
       := written_object user file pub]> (bucket w)) w.

Definition with_record (env : Env) (user : ReqUser) (file : File)
    (w : World) : World :=
  set_files (<[new_doc_id env := uploaded_record env w user file]> (files w))
    (with_object env user file true w).

Definition with_count (user : ReqUser) (delta : Z) (d : UserDoc)
    (w0 w : World) : World :=
  set_users (<[uid user := Platform.add_uploads delta d]> (users w0)) w.

(** The services after the stages of a delete. *)
Definition without_object (doc : FileDoc) (w : World) : World :=
  set_bucket (delete (storagePath doc) (bucket w)) w.

Definition without_record (fileId : string) (doc : FileDoc) (w : World) : World :=
  set_files (delete fileId (files w)) (without_object doc w).

(** The services after the stages of a signup. *)
Definition with_identity (env : Env) (e p dn : string) (w : World) : World :=
  set_auth (auth w ++ [new_record env e p dn]) w.

Definition with_document (env : Env) (e p dn : string) (w : World) : World :=
  set_users (<[new_uid env := new_doc env e dn]> (users w))
    (with_identity env e p dn w).

(** Every way one request can move the services, with what the handler
    has found on the way there. *)
Inductive Step (env : Env) (w : World) : Request -> World -> Prop :=
| step_same req : Step env w req w
| step_identity b e p dn :
    Platform.find_email (auth w) e = None ->
    Platform.find_uid (auth w) (new_uid env) = None ->
    faults env UsersSet = true ->
    Step env w (Signup b) (with_identity env e p dn w)
| step_signup b e p dn :
    Platform.find_email (auth w) e = None ->
    Platform.find_uid (auth w) (new_uid env) = None ->
    Step env w (Signup b) (with_document env e p dn w)
| step_object h file user pub :
    principal env w h = Some user ->
    Step env w (Upload h (Some file)) (with_object env user file pub w)
| step_record h file user :
    principal env w h = Some user ->
    files w !! new_doc_id env = None ->
    counter_doc env w (uid user) = None ->
    Step env w (Upload h (Some file)) (with_record env user file w)
| step_upload h file user d :
    principal env w h = Some user ->
    files w !! new_doc_id env = None ->
    users w !! uid user = Some d ->
    Step env w (Upload h (Some file))
      (with_count user 1 d w (with_record env user file w))
| step_unobject h id key user doc :
    principal env w h = Some user ->
    files w !! key = Some doc ->
    userId doc = uid user ->
    faults env FilesDelete = true ->
    Step env w (DeleteFile h id) (without_object doc w)
| step_unrecord h id key user doc :
    principal env w h = Some user ->
    files w !! key = Some doc ->
    userId doc = uid user ->
    counter_doc env w (uid user) = None ->
    Step env w (DeleteFile h id) (without_record key doc w)
| step_delete h id key user doc d :
    principal env w h = Some user ->
    files w !! key = Some doc ->
    userId doc = uid user ->
    users w !! uid user = Some d ->
    Step env w (DeleteFile h id)
      (with_count user (-1) d w (without_record key doc w)).

(** The SDK methods, all of them. *)
Definition all_ops : list Op :=
  [AuthCreateUser; AuthGetUserByEmail; AuthCreateCustomToken; AuthGetUser;
   UsersSet; UsersGet; UsersUpdate; FilesAdd; FilesGet; FilesQuery; FilesDelete;
   BucketWrite; BucketMakePublic; BucketDelete].

(** Environments in which the platform rejects nothing on its own
    account. *)
Definition fault_free : Env -> Request -> bool :=
  fun env _ => forallb (fun o => negb (faults env o)) all_ops.

(** Every [users] document is keyed by the uid of an identity record, and
    its display name is the one the record was created with. *)
Definition users_identified (w : World) : Prop :=
  forall k d, users w !! k = Some d ->
    exists u, Platform.find_uid (auth w) k = Some u
              /\ ur_uid u = k /\ ur_displayName u = displayName d.

(** Records and objects sit under their principal's prefix. *)
Definition paths_namespaced (w : World) : Prop :=
  (forall id f, files w !! id = Some f ->
     is_Some (Platform.find_uid (auth w) (userId f))
     /\ (exists t, storagePath f = upload_path (userId f) t (fileName f))
     /\ publicUrl f =
          "https://storage.googleapis.com/" +:+ bucket_name w +:+ "/" +:+ storagePath f)
  /\ (forall path o, bucket w !! path = Some o ->
        is_Some (Platform.find_uid (auth w) (so_uploadedBy o))
        /\ exists t, path = upload_path (so_uploadedBy o) t (so_originalName o)).

(** Every identity has its [users] document and every counter is the
    number of records its principal owns. *)
Definition counters_exact (w : World) : Prop :=
  (forall u, In u (auth w) -> is_Some (users w !! ur_uid u))
  /\ (forall k d, users w !! k = Some d ->
        uploads d = Z.of_nat (owned (files w) k))
  /\ (forall id f, files w !! id = Some f ->
        is_Some (Platform.find_uid (auth w) (userId f))).

(** * Properties of the handlers *)

(** ** String helpers *)

Example split_email : Js.split "@" "a@b@c" = ["a"; "b"; "c"].
Proof. reflexivity. Qed.

Example split_bearer : Js.split "Bearer " "Bearer u1" = [""; "u1"].
Proof. reflexivity. Qed.

Example split_overlap : Js.split "XX" "aXXXb" = ["a"; "Xb"].
Proof. reflexivity. Qed.

(** ** The middleware *)

Lemma find_uid_Some a t u :
  Platform.find_uid a t = Some u -> ur_uid u = t.
Proof.
  unfold Platform.find_uid. intros H. apply find_some in H as [_ H].
  by apply bool_decide_eq_true in H.
Qed.

Lemma bearer_truthy h t : bearer h = Some t -> Js.truthy h = true /\
  Js.index (Js.split "Bearer " (default "" h)) 1 = Some t /\ Js.truthy (Some t) = true.
Proof.
  unfold bearer. destruct (Js.truthy h) eqn:Hh; [|done].
  destruct (Js.truthy (Js.index _ 1)) eqn:Ht; [|done].
  intros Heq. rewrite Heq in Ht. done.
Qed.

(** A request [verifyToken] lets through reaches [next] with one call
    logged and the services as they were. *)
Lemma verifyToken_pass env h next s user :
  principal env (world s) h = Some user ->
  verifyToken env h next s =
    next user {| world := world s; calls := calls s ++ [AuthGetUser] |}.
Proof.
  unfold principal. destruct (bearer h) as [t|] eqn:Hb; [|done].
  destruct (faults env AuthGetUser) eqn:Hf; [done|].
  destruct (Platform.find_uid (auth (world s)) t) as [u|] eqn:Hu; [|done].
  simpl. intros [= <-].
  apply bearer_truthy in Hb as (Hh & Ht & Ht').
  unfold verifyToken. rewrite Hh, Ht, Ht'. simpl.
  unfold_platform. unfold_monad. simpl. rewrite Hf. simpl. by rewrite Hu.
Qed.


(** ** The query behind a listing *)

Global Instance newer_first_total : Total Platform.newer_first.
Proof. intros a b. unfold Platform.newer_first. lia. Qed.

Global Instance newer_first_trans : Transitive Platform.newer_first.
Proof. intros a b c. unfold Platform.newer_first. lia. Qed.

Lemma listing_elem w uid id d :
  (id, d) ∈ listing w uid <-> files w !! id = Some d /\ userId d = uid.
Proof.
  unfold listing. rewrite merge_sort_Permutation.
  rewrite elem_of_map_to_list. by rewrite map_lookup_filter_Some.
Qed.

Lemma listing_NoDup w uid : NoDup (fst <$> listing w uid).
Proof.
  unfold listing. rewrite merge_sort_Permutation. apply NoDup_fst_map_to_list.
Qed.

Lemma listing_sorted w uid : StronglySorted Platform.newer_first (listing w uid).
Proof. unfold listing. apply StronglySorted_merge_sort; apply _. Qed.

(** ** Upload: the write-object stage *)

(** C5.  When the object write of a file under the size limit is
    rejected, the upload answers 500 "Failed to upload file", makes no
    further platform call, and leaves the bucket, the [files] collection
    and every [uploads] counter as they were. *)
Theorem upload_write_failure env w h user file :
  principal env w h = Some user ->
  (size file < fileSize_limit)%N ->
  faults env BucketWrite = true ->
  let o := run (upload env h (Some file)) w in
  response o = Some {| status := 500; body := BError "Failed to upload file" |}
  /\ after o = w
  /\ trace o = [AuthGetUser; BucketWrite].
Proof.
  intros Hp Hsz Hf. unfold run, upload.
  rewrite (verifyToken_pass _ _ _ _ user) by done.
  unfold upload_single. apply N.leb_gt in Hsz. rewrite Hsz.
  unfold upload_handler. unfold_platform. unfold_monad. simpl.
  rewrite Hf. simpl. done.
Qed.

Lemma upload_write_failure_witness :
  let env := Sample.env_at (Sample.only BucketWrite) 102 "" "f1" in
  let o := run (upload env (Some "Bearer u1") (Some Sample.a_jpg)) Sample.w2 in
  response o = Some {| status := 500; body := BError "Failed to upload file" |}
  /\ after o = Sample.w2
  /\ trace o = [AuthGetUser; BucketWrite].
Proof.
  apply (upload_write_failure _ _ _ Sample.alice_user); by vm_compute.
Defined.

(** ** Delete: ownership and the delete-object stage *)

(** C6.  A delete request whose id refers to a record owned by somebody
    else changes nothing in any service, and is answered 403 once the
    record has been read. *)
Theorem delete_not_owner env w h user fileId key fileData :
  principal env w h = Some user ->
  Platform.doc_ref fileId = inr (Platform.TopDoc key) ->
  files w !! key = Some fileData ->
  userId fileData <> uid user ->
  let o := run (delete_file env h fileId) w in
  after o = w
  /\ ~ In BucketDelete (trace o) /\ ~ In FilesDelete (trace o)
  /\ ~ In UsersUpdate (trace o)
  /\ (faults env FilesGet = false ->
      response o = Some {| status := 403; body := BError "Unauthorized" |}).
Proof.
  intros Hp Hk Hf Hne. unfold run, delete_file.
  rewrite (verifyToken_pass _ _ _ _ user) by done.
  unfold_platform. rewrite Hk. unfold_monad. simpl.
  destruct (faults env FilesGet) eqn:Hg; simpl.
  - repeat split; [intuition discriminate..|done].
  - rewrite Hf. rewrite bool_decide_eq_false_2 by done. simpl.
    repeat split; intuition discriminate.
Qed.

(** C4, as the code has it.  When the object delete is rejected, the
    delete makes exactly three platform calls, none of them the record
    delete or the counter update, and every service is as it was: the
    record is still there.  The answer is the handler's one 500 "Failed to
    delete file", which names no stage: a delete whose lookup is rejected
    gets the same. *)
Theorem delete_object_failure env w h user fileId key fileData :
  principal env w h = Some user ->
  Platform.doc_ref fileId = inr (Platform.TopDoc key) ->
  faults env FilesGet = false ->
  files w !! key = Some fileData ->
  userId fileData = uid user ->
  faults env BucketDelete = true \/ bucket w !! storagePath fileData = None ->
  let o := run (delete_file env h fileId) w in
  response o = Some {| status := 500; body := BError "Failed to delete file" |}
  /\ trace o = [AuthGetUser; FilesGet; BucketDelete]
  /\ ~ In FilesDelete (trace o)
  /\ after o = w
  /\ files (after o) !! key = Some fileData
  /\ (forall env',
        principal env' w h = Some user ->
        faults env' FilesGet = true ->
        response (run (delete_file env' h fileId) w) = response o).
Proof.
  intros Hp Hk Hg Hf Hown Hfail o.
  assert (o = {| response :=
                   Some {| status := 500; body := BError "Failed to delete file" |};
                 after := w; trace := [AuthGetUser; FilesGet; BucketDelete] |})
    as ->.
  { subst o. unfold run, delete_file.
    rewrite (verifyToken_pass _ _ _ _ user) by done.
    unfold_platform. rewrite Hk. unfold_monad. simpl.
    rewrite Hg. simpl. rewrite Hf. rewrite bool_decide_eq_true_2 by done. simpl.
    destruct (faults env BucketDelete) eqn:Hd; simpl; [done|].
    destruct Hfail as [|Hb]; [done|]. by rewrite Hb. }
  simpl. split; [done|]. split; [done|]. split; [intuition discriminate|].
  split; [done|]. split; [done|].
  intros env' Hp' Hg'. unfold run, delete_file.
  rewrite (verifyToken_pass _ _ _ _ user) by done.
  unfold_platform. rewrite Hk. unfold_monad. simpl. by rewrite Hg'.
Qed.

Lemma delete_not_owner_witness :
  let env := Sample.env_at no_faults 103 "" "" in
  let o := run (delete_file env (Some "Bearer u2") "f1") Sample.w3 in
  after o = Sample.w3
  /\ ~ In BucketDelete (trace o) /\ ~ In FilesDelete (trace o)
  /\ ~ In UsersUpdate (trace o)
  /\ (faults env FilesGet = false ->
      response o = Some {| status := 403; body := BError "Unauthorized" |}).
Proof.
  apply (delete_not_owner _ _ _ Sample.bob_user "f1" "f1" Sample.f1_doc);
    by vm_compute.
Defined.

Lemma delete_object_failure_witness :
  let env := Sample.env_at (Sample.only BucketDelete) 103 "" "" in
  let o := run (delete_file env (Some "Bearer u1") "f1") Sample.w3 in
  response o = Some {| status := 500; body := BError "Failed to delete file" |}
  /\ trace o = [AuthGetUser; FilesGet; BucketDelete]
  /\ ~ In FilesDelete (trace o)
  /\ after o = Sample.w3
  /\ files (after o) !! "f1" = Some Sample.f1_doc
  /\ (forall env',
        principal env' Sample.w3 (Some "Bearer u1") = Some Sample.alice_user ->
        faults env' FilesGet = true ->
        response (run (delete_file env' (Some "Bearer u1") "f1") Sample.w3)
          = response o).
Proof.
  apply (delete_object_failure _ _ _ Sample.alice_user "f1" "f1" Sample.f1_doc);
    try (by vm_compute).
  left. by vm_compute.
Defined.

(** C4 as stated fails: Alice's delete of f1 gets the same answer when the
    object delete is rejected as when the record delete is. *)
Lemma object_delete_failure_unnamed :
  ~ object_delete_failure_named Sample.w3 (Some "Bearer u1") "f1"
      (Sample.env_at (Sample.only BucketDelete) 103 "" "")
      (Sample.env_at (Sample.only FilesDelete) 103 "" "").
Proof. intros H. apply H. vm_compute. reflexivity. Qed.

(** ** Upload: the create-record and increment-counter stages *)

(** The services after object write and [makePublic]. *)
Lemma upload_after_write env w h user file :
  object_written env w h user file ->
  let name := upload_path (uid user) (date_now env) (originalname file) in
  upload env h (Some file) {| world := w; calls := [] |} =
    let s := {| world := set_bucket (<[name := uploaded_object user file]> (bucket w)) w;
                calls := [AuthGetUser; BucketWrite; BucketMakePublic] |} in
    match
      (let! id := Platform.files_add env (uploaded_record env w user file) in
       do! Platform.users_increment env (uid user) 1 in
       send 200 (BUpload id (originalname file) (size file)
                   (publicUrl (uploaded_record env w user file)) (mimetype file))) s
    with
    | (inr resp, s') => (inr resp, s')
    | (inl _, s') => (inr None, s')
    end.
Proof.
  intros (Hp & Hsz & Hw & Hm) name. unfold upload.
  rewrite (verifyToken_pass _ _ _ _ user) by done.
  unfold upload_single. apply N.leb_gt in Hsz. rewrite Hsz.
  unfold upload_handler, upload_finish. fold name.
  unfold Platform.bucket_write, Platform.bucket_makePublic.
  unfold bind at 1. unfold try_ at 1. unfold bind at 1. unfold call at 1.
  simpl. rewrite Hw. unfold bind at 1. unfold get_world at 1.
  unfold modify_world at 1. simpl.
  unfold bind at 1. unfold try_ at 1. unfold bind at 1. unfold bind at 1.
  unfold call at 1. simpl. rewrite Hm.
  unfold bind at 1. unfold get_world at 1. simpl.
  rewrite lookup_insert_eq. unfold modify_world at 1. simpl.
  unfold bind at 1. unfold get_world at 1. simpl.
  rewrite insert_insert_eq. unfold uploaded_record, uploaded_object, Platform.make_public.
  simpl. fold name. unfold set_bucket. simpl.
  match goal with |- _ = (let (_, _) := ?X in _) => destruct X as [[?|?] ?] end;
    reflexivity.
Qed.

(** C1, as the code has it.  When the record create is rejected after the
    object was written and made public, the upload stops there: it makes no
    object-store delete call, the object stays in the bucket under its
    path, the [files] and [users] collections are as they were, and no
    response naming the path is sent (the listener's rejection is not
    handled, so none is sent at all). *)
Theorem upload_record_failure env w h user file :
  object_written env w h user file ->
  record_create_fails env w = true ->
  let o := run (upload env h (Some file)) w in
  let name := upload_path (uid user) (date_now env) (originalname file) in
  trace o = [AuthGetUser; BucketWrite; BucketMakePublic; FilesAdd]
  /\ ~ In BucketDelete (trace o)
  /\ bucket (after o) !! name = Some (uploaded_object user file)
  /\ files (after o) = files w
  /\ users (after o) = users w
  /\ response o = None.
Proof.
  intros Hw Hfail o name. subst o. unfold run.
  rewrite (upload_after_write _ _ _ user) by done. fold name. simpl.
  unfold record_create_fails in Hfail.
  unfold Platform.files_add. unfold_monad. simpl.
  destruct (faults env FilesAdd) eqn:Ha; simpl.
  - rewrite lookup_insert_eq. repeat split; try done. intuition discriminate.
  - simpl in Hfail.
    destruct (Platform.is_doc_id (new_doc_id env)) eqn:Hi; simpl in *.
    + apply bool_decide_eq_true in Hfail as [d Hd].
      rewrite Hd. simpl. rewrite lookup_insert_eq.
      repeat split; try done. intuition discriminate.
    + rewrite lookup_insert_eq. repeat split; try done. intuition discriminate.
Qed.

(** C2, as the code has it.  When the counter update is rejected after the
    object write and the record create, the record stays in [files] under
    the id it was given and is in the owner's listing, the object stays in
    the bucket, nothing is deleted and no counter changes; the upload does
    not report success (no response is sent). *)
Theorem upload_counter_failure env w h user file :
  object_written env w h user file ->
  record_create_fails env w = false ->
  counter_update_fails env w user = true ->
  let o := run (upload env h (Some file)) w in
  let name := upload_path (uid user) (date_now env) (originalname file) in
  trace o = [AuthGetUser; BucketWrite; BucketMakePublic; FilesAdd; UsersUpdate]
  /\ files (after o) = <[new_doc_id env := uploaded_record env w user file]> (files w)
  /\ files (after o) !! new_doc_id env = Some (uploaded_record env w user file)
  /\ (new_doc_id env, uploaded_record env w user file)
       ∈ listing (after o) (uid user)
  /\ bucket (after o) = <[name := uploaded_object user file]> (bucket w)
  /\ users (after o) = users w
  /\ response o = None.
Proof.
  intros Hw Hrec Hcnt o name.
  assert (forall q : Outcome,
    files (after q) !! new_doc_id env = Some (uploaded_record env w user file) ->
    (new_doc_id env, uploaded_record env w user file) ∈ listing (after q) (uid user))
    as Hlist by (intros q Hq; by apply listing_elem).
  cut (trace o = [AuthGetUser; BucketWrite; BucketMakePublic; FilesAdd; UsersUpdate]
       /\ files (after o) = <[new_doc_id env := uploaded_record env w user file]> (files w)
       /\ files (after o) !! new_doc_id env = Some (uploaded_record env w user file)
       /\ bucket (after o) = <[name := uploaded_object user file]> (bucket w)
       /\ users (after o) = users w
       /\ response o = None).
  { intros (H1 & H2 & H3 & H4 & H5 & H6). repeat split; try done. by apply Hlist. }
  clear Hlist. subst o. unfold run.
  rewrite (upload_after_write _ _ _ user) by done. fold name. simpl.
  unfold record_create_fails in Hrec. unfold counter_update_fails in Hcnt.
  apply orb_false_iff in Hrec as [Ha Hid].
  apply orb_false_iff in Ha as [Ha Hi]. apply negb_false_iff in Hi.
  apply bool_decide_eq_false in Hid.
  destruct (files w !! new_doc_id env) as [d|] eqn:Hd; [by destruct Hid|].
  unfold Platform.files_add, Platform.users_increment. unfold_monad. simpl.
  rewrite Ha. simpl. rewrite Hi. simpl. rewrite Hd. simpl.
  destruct (faults env UsersUpdate) eqn:Hu; simpl.
  - rewrite lookup_insert_eq. done.
  - simpl in Hcnt. apply bool_decide_eq_true in Hcnt. rewrite Hcnt. simpl.
    rewrite lookup_insert_eq. done.
Qed.

Lemma sample_object_written bad :
  bad AuthGetUser = false -> bad BucketWrite = false ->
  bad BucketMakePublic = false ->
  object_written (Sample.env_at bad 102 "" "f1") Sample.w2 (Some "Bearer u1")
    Sample.alice_user Sample.a_jpg.
Proof.
  intros H1 H2 H3. split; [|split; [|split]].
  - unfold principal. simpl faults. rewrite H1. by vm_compute.
  - by vm_compute.
  - exact H2.
  - exact H3.
Qed.

Lemma upload_record_failure_witness :
  let env := Sample.env_at (Sample.only FilesAdd) 102 "" "f1" in
  let w := Sample.w2 in
  let user := Sample.alice_user in
  let file := Sample.a_jpg in
  let o := run (upload env (Some "Bearer u1") (Some file)) w in
  let name := upload_path (uid user) (date_now env) (originalname file) in
  trace o = [AuthGetUser; BucketWrite; BucketMakePublic; FilesAdd]
  /\ ~ In BucketDelete (trace o)
  /\ bucket (after o) !! name = Some (uploaded_object user file)
  /\ files (after o) = files w
  /\ users (after o) = users w
  /\ response o = None.
Proof.
  intros env w user file.
  apply (upload_record_failure env w (Some "Bearer u1") user file).
  - apply sample_object_written; reflexivity.
  - vm_compute. reflexivity.
Defined.

Lemma upload_counter_failure_witness :
  let env := Sample.env_at (Sample.only UsersUpdate) 102 "" "f1" in
  let w := Sample.w2 in
  let user := Sample.alice_user in
  let file := Sample.a_jpg in
  let o := run (upload env (Some "Bearer u1") (Some file)) w in
  let name := upload_path (uid user) (date_now env) (originalname file) in
  trace o = [AuthGetUser; BucketWrite; BucketMakePublic; FilesAdd; UsersUpdate]
  /\ files (after o) = <[new_doc_id env := uploaded_record env w user file]> (files w)
  /\ files (after o) !! new_doc_id env = Some (uploaded_record env w user file)
  /\ (new_doc_id env, uploaded_record env w user file)
       ∈ listing (after o) (uid user)
  /\ bucket (after o) = <[name := uploaded_object user file]> (bucket w)
  /\ users (after o) = users w
  /\ response o = None.
Proof.
  intros env w user file.
  apply (upload_counter_failure env w (Some "Bearer u1") user file).
  - apply sample_object_written; reflexivity.
  - vm_compute. reflexivity.
  - vm_compute. reflexivity.
Defined.

(** C1 as stated fails: with the record create rejected, Alice's upload
    neither tries to delete the object it wrote nor answers. *)
Lemma record_failure_unaccounted :
  ~ record_failure_accounted (Sample.env_at (Sample.only FilesAdd) 102 "" "f1")
      Sample.w2 (Some "Bearer u1") Sample.a_jpg.
Proof.
  intros H. specialize (H Sample.alice_user).
  destruct H as [H|H].
  - apply sample_object_written; reflexivity.
  - vm_compute. reflexivity.
  - vm_compute in H. intuition discriminate.
  - vm_compute in H. destruct H as [r H]. discriminate.
Qed.

(** C2 as stated fails: with the counter update rejected, Alice's upload
    sends no success response. *)
Lemma counter_failure_no_success :
  ~ counter_failure_reports_success
      (Sample.env_at (Sample.only UsersUpdate) 102 "" "f1")
      Sample.w2 (Some "Bearer u1") Sample.a_jpg.
Proof.
  intros H. specialize (H Sample.alice_user).
  destruct H as [url H].
  - apply sample_object_written; reflexivity.
  - vm_compute. reflexivity.
  - vm_compute. reflexivity.
  - vm_compute in H. discriminate.
Qed.

(** ** Signup: the default display name *)

Lemma split_at_head s :
  exists h t, Js.split "@" s = h :: t /\
    (forall c, In c (list_ascii_of_string h) -> c <> At) /\
    match t with
    | [] => s = h
    | _ :: _ => exists rest, s = h +:+ String At rest
    end.
Proof.
  unfold Js.split. induction s as [|c s IH].
  - exists "", []. simpl. split; [done|]. split; [intros c []|done].
  - destruct IH as (h & t & Hs & Hh & Ht).
    cbn [Js.split_go Js.starts_with String.length Nat.sub].
    destruct (Ascii.eqb_spec "@" c) as [<-|Hc]; cbn [andb].
    + rewrite Hs. exists "", (h :: t). split; [done|].
      split; [intros c []|]. by exists s.
    + rewrite Hs. exists (String c h), t. split; [done|]. split.
      * intros c' [<-|Hin]; [by intros ->|by apply Hh].
      * destruct t as [|t0 t]; [by rewrite Ht|].
        destruct Ht as [rest ->]. by exists rest.
Qed.

Lemma valid_email_before_at e :
  Platform.valid_email e = true ->
  exists name, Js.index (Js.split "@" e) 0 = Some name /\
    before_first_at e name /\ Js.truthy (Some e) = true.
Proof.
  unfold Platform.valid_email.
  destruct (split_at_head e) as (h & t & Hs & Hh & Ht). rewrite Hs.
  destruct t as [|b [|??]]; [done| |done].
  intros Hv. apply andb_true_iff in Hv as [Ha _].
  apply negb_true_iff, bool_decide_eq_false in Ha.
  exists h. split; [done|]. destruct Ht as [rest ->]. split.
  - split; [by exists rest|done].
  - by destruct h.
Qed.

Lemma valid_password_truthy p :
  Platform.valid_password p = true -> Js.truthy (Some p) = true.
Proof. unfold Platform.valid_password. by destruct p. Qed.

Lemma find_uid_app_new a u :
  Platform.find_uid a (ur_uid u) = None ->
  Platform.find_uid (a ++ [u]) (ur_uid u) = Some u.
Proof.
  unfold Platform.find_uid. induction a as [|x a IH]; simpl.
  - by rewrite bool_decide_eq_true_2.
  - destruct (bool_decide (ur_uid x = ur_uid u)); [done|]. apply IH.
Qed.

(** C10.  A signup with a valid e-mail and password and no [displayName]
    gives the part of the e-mail before its first ['@'] as display name to
    the identity record it creates and to the [users] document it stores:
    whatever the run adds to either carries that name, a run answered 201
    has added both, and a run in which the platform accepts both calls is
    answered 201. *)
Theorem signup_default_displayName env w e p :
  Platform.valid_email e = true ->
  Platform.valid_password p = true ->
  let o := run (signup env (signup_without_name e p)) w in
  exists name,
    before_first_at e name
    /\ (forall u, In u (auth (after o)) -> In u (auth w) \/ ur_displayName u = name)
    /\ (forall d, users (after o) !! new_uid env = Some d ->
          users w !! new_uid env = Some d \/ displayName d = name)
    /\ (forall r, response o = Some r -> status r = 201 ->
          Platform.find_uid (auth (after o)) (new_uid env) =
            Some {| ur_uid := new_uid env; ur_email := e;
                    ur_displayName := name; ur_password := p |}
          /\ users (after o) !! new_uid env =
               Some {| email := e; displayName := name;
                       createdAt := server_time env; uploads := 0 |}
          /\ body r = BSignup (new_uid env) e name)
    /\ (faults env AuthCreateUser = false -> faults env UsersSet = false ->
        Platform.find_email (auth w) e = None ->
        Platform.find_uid (auth w) (new_uid env) = None ->
        exists r, response o = Some r /\ status r = 201).
Proof.
  intros He Hp o.
  destruct (valid_email_before_at e He) as (name & Hidx & Hname & Hte).
  pose proof (valid_password_truthy p Hp) as Htp.
  exists name. split; [done|].
  assert (Ho : o = run (signup env (signup_without_name e p)) w) by done.
  clearbody o. revert Ho.
  unfold run, signup, signup_without_name.
  cbn [b_email b_password b_displayName].
  rewrite Hte, Htp. cbn [negb orb].
  change (default "" (Some e)) with e. change (default "" (Some p)) with p.
  rewrite Hidx. change (default "" (Some name)) with name. cbn [Js.or_else].
  unfold Platform.createUser, Platform.users_set. unfold_monad. simpl.
  rewrite He, Hp. simpl.
  destruct (faults env AuthCreateUser) eqn:Hc; simpl.
  { intros ->. simpl. split; [tauto|]. split; [tauto|].
    split; [intros r [= <-]; discriminate|intros; congruence]. }
  destruct (Platform.find_email (auth w) e) as [u0|] eqn:Hfe; simpl.
  { intros ->. simpl. split; [tauto|]. split; [tauto|].
    split; [intros r [= <-]; discriminate|intros; congruence]. }
  destruct (Platform.find_uid (auth w) (new_uid env)) as [u1|] eqn:Hfu; simpl.
  { intros ->. simpl. split; [tauto|]. split; [tauto|].
    split; [intros r [= <-]; discriminate|intros; congruence]. }
  assert (forall u, In u (auth w ++ [{| ur_uid := new_uid env; ur_email := e;
                      ur_displayName := name; ur_password := p |}]) ->
                    In u (auth w) \/ ur_displayName u = name) as Hauth.
  { intros u Hin. apply in_app_or in Hin as [Hin|[<-|[]]]; [by left|by right]. }
  destruct (faults env UsersSet) eqn:Hs; simpl.
  { intros ->. simpl. split; [tauto|]. split; [tauto|].
    split; [intros r [= <-]; discriminate|intros; congruence]. }
  intros ->. simpl. split; [done|]. split.
  { rewrite lookup_insert_eq. intros d [= <-]. by right. }
  split.
  { intros r [= <-] _. split; [|split; [|done]].
    - by apply (find_uid_app_new (auth w)
                 {| ur_uid := new_uid env; ur_email := e;
                    ur_displayName := name; ur_password := p |}).
    - by rewrite lookup_insert_eq. }
  intros _ _ _ _. by eexists.
Qed.

Lemma signup_default_displayName_witness :
  let env := Sample.env_at no_faults 100 "u1" "" in
  let o := run (signup env (signup_without_name "alice@example.com" "secret1"))
               Sample.w0 in
  exists name,
    before_first_at "alice@example.com" name
    /\ (forall u, In u (auth (after o)) ->
          In u (auth Sample.w0) \/ ur_displayName u = name)
    /\ (forall d, users (after o) !! new_uid env = Some d ->
          users Sample.w0 !! new_uid env = Some d \/ displayName d = name)
    /\ (forall r, response o = Some r -> status r = 201 ->
          Platform.find_uid (auth (after o)) (new_uid env) =
            Some {| ur_uid := new_uid env; ur_email := "alice@example.com";
                    ur_displayName := name; ur_password := "secret1" |}
          /\ users (after o) !! new_uid env =
               Some {| email := "alice@example.com"; displayName := name;
                       createdAt := server_time env; uploads := 0 |}
          /\ body r = BSignup (new_uid env) "alice@example.com" name)
    /\ (faults env AuthCreateUser = false -> faults env UsersSet = false ->
        Platform.find_email (auth Sample.w0) "alice@example.com" = None ->
        Platform.find_uid (auth Sample.w0) (new_uid env) = None ->
        exists r, response o = Some r /\ status r = 201).
Proof.
  intros env.
  apply (signup_default_displayName env Sample.w0 "alice@example.com" "secret1");
    vm_compute; reflexivity.
Defined.

(** ** Login: the password is not looked at *)

Lemma truthy_nonempty s : s <> "" -> Js.truthy (Some s) = true.
Proof. by destruct s. Qed.

(** C9.  Two logins for the same e-mail with any two non-empty passwords
    run identically: same response, same services, same platform calls.
    When the e-mail is registered and the platform accepts the three calls,
    both are answered 200 with a custom token for that user, whatever the
    stored password is. *)
Theorem login_ignores_password env w e p1 p2 u :
  e <> "" -> p1 <> "" -> p2 <> "" ->
  Platform.find_email (auth w) e = Some u ->
  let o1 := run (login env (login_body e p1)) w in
  let o2 := run (login env (login_body e p2)) w in
  o1 = o2
  /\ (faults env AuthGetUserByEmail = false ->
      faults env AuthCreateCustomToken = false ->
      faults env UsersGet = false ->
      response o1 = Some (login_ok env w u)
      /\ response o2 = Some (login_ok env w u)).
Proof.
  intros He Hp1 Hp2 Hu o1 o2.
  assert (forall p, p <> "" ->
    run (login env (login_body e p)) w =
    run (let! r := try_ (
           let! userRecord := Platform.getUserByEmail env e in
           let! customToken := Platform.createCustomToken env (ur_uid userRecord) in
           let! userData := Platform.users_get env (ur_uid userRecord) in
           send 200 (BLogin customToken (ur_uid userRecord) (ur_email userRecord)
                       (Js.or_else (displayName <$> userData) (ur_email userRecord))
                       (default 0%Z (uploads <$> userData)))) in
         match r with
         | inr resp => ret resp
         | inl _ => send 401 (BError "Invalid credentials")
         end) w) as Hrun.
  { intros p Hp. unfold login, login_body. cbn [b_email b_password].
    by rewrite (truthy_nonempty e He), (truthy_nonempty p Hp). }
  subst o1 o2. rewrite (Hrun p1 Hp1), (Hrun p2 Hp2). split; [done|].
  intros Hf1 Hf2 Hf3.
  unfold run, login_ok, Platform.getUserByEmail, Platform.createCustomToken,
    Platform.users_get.
  unfold_monad. simpl. rewrite Hf1. simpl. rewrite Hu. simpl.
  rewrite Hf2. simpl. rewrite Hf3. simpl. done.
Qed.

Lemma login_ignores_password_witness :
  let env := Sample.env_at no_faults 105 "" "" in
  let w := Sample.w2 in
  let u := {| ur_uid := "u1"; ur_email := "alice@example.com";
              ur_displayName := "alice"; ur_password := "secret1" |} in
  let o1 := run (login env (login_body "alice@example.com" "secret1")) w in
  let o2 := run (login env (login_body "alice@example.com" "not the password")) w in
  o1 = o2
  /\ (faults env AuthGetUserByEmail = false ->
      faults env AuthCreateCustomToken = false ->
      faults env UsersGet = false ->
      response o1 = Some (login_ok env w u)
      /\ response o2 = Some (login_ok env w u)).
Proof.
  intros env w u.
  apply (login_ignores_password env w "alice@example.com" "secret1"
           "not the password" u); vm_compute; congruence.
Defined.

(** ** What each route does to the services *)

Lemma upload_run env w h user file :
  principal env w h = Some user ->
  (size file < fileSize_limit)%N ->
  run (upload env h (Some file)) w = upload_outcome env w user file.
Proof.
  intros Hp Hsz. unfold upload_outcome.
  destruct (faults env BucketWrite) eqn:Hw.
  { unfold run, upload. rewrite (verifyToken_pass _ _ _ _ user) by done.
    unfold upload_single. apply N.leb_gt in Hsz. rewrite Hsz.
    unfold upload_handler. unfold_platform. unfold_monad. simpl.
    by rewrite Hw. }
  destruct (faults env BucketMakePublic) eqn:Hm.
  { unfold run, upload. rewrite (verifyToken_pass _ _ _ _ user) by done.
    unfold upload_single. apply N.leb_gt in Hsz. rewrite Hsz.
    unfold upload_handler, upload_finish. unfold_platform. unfold_monad. simpl.
    rewrite Hw. simpl. by rewrite Hm. }
  unfold run. rewrite (upload_after_write _ _ _ user) by done.
  unfold record_create_fails, counter_doc.
  unfold Platform.files_add, Platform.users_increment. unfold_monad. simpl.
  destruct (faults env FilesAdd) eqn:Ha; simpl; [done|].
  destruct (Platform.is_doc_id (new_doc_id env)) eqn:Hi; simpl; [|done].
  destruct (files w !! new_doc_id env) as [d0|] eqn:Hd; simpl; [done|].
  destruct (faults env UsersUpdate) eqn:Hu; simpl; [done|].
  destruct (users w !! uid user) as [d|] eqn:Hud; simpl; done.
Qed.

Lemma delete_run env w h user fileId :
  principal env w h = Some user ->
  run (delete_file env h fileId) w = delete_result env w user fileId.
Proof.
  intros Hp. unfold delete_result, delete_outcome, run, delete_file.
  rewrite (verifyToken_pass _ _ _ _ user) by done.
  unfold counter_doc. unfold_platform.
  destruct (Platform.doc_ref fileId) as [e|[key|]]; unfold_monad; simpl.
  - done.
  - destruct (faults env FilesGet) eqn:Hg; simpl; [done|].
    destruct (files w !! key) as [fd|] eqn:Hf; simpl; [|done].
    destruct (bool_decide (userId fd = uid user)) eqn:Ho; simpl; [|done].
    destruct (faults env BucketDelete) eqn:Hb; simpl; [done|].
    destruct (bucket w !! storagePath fd) as [ob|] eqn:Hob; simpl; [|done].
    destruct (faults env FilesDelete) eqn:Hfd; simpl; [done|].
    destruct (faults env UsersUpdate) eqn:Hu; simpl; [done|].
    destruct (users w !! uid user) as [d|] eqn:Hud; simpl; done.
  - by destruct (faults env FilesGet).
Qed.

Lemma delete_run_key env w h user fileId key :
  principal env w h = Some user ->
  Platform.doc_ref fileId = inr (Platform.TopDoc key) ->
  run (delete_file env h fileId) w = delete_outcome env w user key.
Proof.
  intros Hp Hk. rewrite (delete_run _ _ _ user) by done.
  unfold delete_result. by rewrite Hk.
Qed.


(** ** Upload: storage paths *)

Lemma lacks_cons c x s :
  lacks c (String x s) = true -> x <> c /\ lacks c s = true.
Proof.
  unfold lacks. simpl. intros H. apply andb_true_iff in H as [H1 H2].
  split; [|done]. apply negb_true_iff in H1. by apply Ascii.eqb_neq.
Qed.

Lemma append_sep_inj c a1 a2 b1 b2 :
  lacks c a1 = true -> lacks c a2 = true ->
  a1 +:+ String c b1 = a2 +:+ String c b2 -> a1 = a2 /\ b1 = b2.
Proof.
  revert a2. induction a1 as [|x a1 IH]; intros [|y a2] H1 H2; simpl.
  - by intros [= ->].
  - apply lacks_cons in H2 as [Hy _]. by intros [= <-].
  - apply lacks_cons in H1 as [Hx _]. by intros [= ->].
  - apply lacks_cons in H1 as [_ H1]. apply lacks_cons in H2 as [_ H2].
    intros [= -> Heq]. destruct (IH a2 H1 H2 Heq) as [-> ->]. done.
Qed.

Lemma pretty_N_char_not_underscore d : pretty_N_char d <> "_"%char.
Proof. unfold pretty_N_char. by repeat case_match. Qed.

Lemma pretty_N_go_lacks_underscore x s :
  lacks "_" s = true -> lacks "_" (pretty_N_go x s) = true.
Proof.
  revert s. induction (N.lt_wf_0 x) as [x _ IH]. intros s Hs.
  assert (x = 0 \/ 0 < x)%N as [->|Hx] by lia.
  - by rewrite pretty_N_go_0.
  - rewrite pretty_N_go_step by done. apply IH.
    + by apply N.div_lt.
    + unfold lacks. simpl. fold (lacks "_" s). rewrite Hs.
      pose proof (pretty_N_char_not_underscore (x `mod` 10)%N) as Hd.
      apply Ascii.eqb_neq in Hd. by rewrite Hd.
Qed.

Lemma show_lacks_underscore n : lacks "_" (Js.show n) = true.
Proof.
  unfold Js.show, pretty, pretty_N. case_decide; [done|].
  by apply pretty_N_go_lacks_underscore.
Qed.

(** The path of an upload determines who uploaded, when and under what
    name, as long as uids have no ['/']. *)
Lemma upload_path_inj u1 t1 n1 u2 t2 n2 :
  lacks "/" u1 = true -> lacks "/" u2 = true ->
  upload_path u1 t1 n1 = upload_path u2 t2 n2 ->
  u1 = u2 /\ t1 = t2 /\ n1 = n2.
Proof.
  intros H1 H2. unfold upload_path. intros Heq.
  assert (u1 +:+ String "/" (Js.show t1 +:+ String "_" n1) =
          u2 +:+ String "/" (Js.show t2 +:+ String "_" n2)) as Heq'.
  { simpl in Heq. by injection Heq. }
  apply append_sep_inj in Heq' as [-> Heq']; [|done..].
  apply append_sep_inj in Heq' as [Ht ->]; [|apply show_lacks_underscore..].
  split; [done|]. split; [|done]. by apply (inj pretty).
Qed.

Lemma upload_success env w h user file :
  principal env w h = Some user ->
  (size file < fileSize_limit)%N ->
  succeeded (run (upload env h (Some file)) w) ->
  exists d,
    counter_doc env w (uid user) = Some d
    /\ files w !! new_doc_id env = None
    /\ after (run (upload env h (Some file)) w) =
         set_users (<[uid user := Platform.add_uploads 1 d]> (users w))
           (set_files (<[new_doc_id env := uploaded_record env w user file]> (files w))
              (set_bucket
                 (<[upload_path (uid user) (date_now env) (originalname file)
                    := uploaded_object user file]> (bucket w)) w)).
Proof.
  intros Hp Hsz. rewrite (upload_run _ _ _ user) by done.
  unfold upload_outcome, succeeded.
  destruct (faults env BucketWrite); simpl.
  { intros (r & [= <-] & Hs). discriminate. }
  destruct (faults env BucketMakePublic); simpl.
  { by intros (r & [=] & _). }
  destruct (record_create_fails env w) eqn:Hr; simpl.
  { by intros (r & [=] & _). }
  destruct (counter_doc env w (uid user)) as [d|]; simpl.
  - intros _. exists d. split; [done|]. split; [|done].
    unfold record_create_fails in Hr. apply orb_false_iff in Hr as [_ Hr].
    apply bool_decide_eq_false in Hr.
    destruct (files w !! new_doc_id env); [|done]. destruct Hr. eauto.
  - by intros (r & [=] & _).
Qed.

Lemma upload_oversize env w h user file :
  principal env w h = Some user ->
  (fileSize_limit <= size file)%N ->
  run (upload env h (Some file)) w =
    {| response := Some {| status := 500; body := BFileTooLarge |};
       after := w; trace := [AuthGetUser] |}.
Proof.
  intros Hp Hsz. unfold run, upload.
  rewrite (verifyToken_pass _ _ _ _ user) by done.
  unfold upload_single. apply N.leb_le in Hsz. by rewrite Hsz.
Qed.

(** A file of exactly 5 MB is refused like a larger one; one byte less
    passes. *)
Example upload_at_the_limit :
  let file n := {| originalname := "big.bin"; mimetype := "application/octet-stream";
                   size := n; buffer := "" |} in
  let env := Sample.env_at no_faults 104 "" "f2" in
  run (upload env (Some "Bearer u1") (Some (file 5242880%N))) Sample.w3 =
    {| response := Some {| status := 500; body := BFileTooLarge |};
       after := Sample.w3; trace := [AuthGetUser] |}
  /\ succeeded (run (upload env (Some "Bearer u1") (Some (file 5242879%N))) Sample.w3).
Proof.
  split; [vm_compute; reflexivity|].
  unfold succeeded. vm_compute. eexists. split; reflexivity.
Qed.

Lemma upload_success_size env w h user file :
  principal env w h = Some user ->
  succeeded (run (upload env h (Some file)) w) ->
  (size file < fileSize_limit)%N.
Proof.
  intros Hp (r & Hr & Hs).
  destruct (N.lt_ge_cases (size file) fileSize_limit) as [|Hgt]; [done|].
  rewrite (upload_oversize _ _ _ user) in Hr by done.
  simpl in Hr. injection Hr as <-. discriminate.
Qed.

(** C3, as the code has it.  Two successful uploads that differ in the
    uploading principal, in the millisecond [Date.now()] returned or in the
    original file name leave records with different storage paths (uids
    are free of ['/']); each record's path is
    [uploads/<uid>/<Date.now()>_<originalname>]. *)
Theorem upload_paths_distinct env1 w1 h1 u1 file1 env2 w2 h2 u2 file2 :
  principal env1 w1 h1 = Some u1 ->
  principal env2 w2 h2 = Some u2 ->
  lacks "/" (uid u1) = true ->
  lacks "/" (uid u2) = true ->
  let o1 := run (upload env1 h1 (Some file1)) w1 in
  let o2 := run (upload env2 h2 (Some file2)) w2 in
  succeeded o1 -> succeeded o2 ->
  uid u1 <> uid u2 \/ date_now env1 <> date_now env2
    \/ originalname file1 <> originalname file2 ->
  exists d1 d2,
    files (after o1) !! new_doc_id env1 = Some d1
    /\ files (after o2) !! new_doc_id env2 = Some d2
    /\ storagePath d1 = upload_path (uid u1) (date_now env1) (originalname file1)
    /\ storagePath d2 = upload_path (uid u2) (date_now env2) (originalname file2)
    /\ storagePath d1 <> storagePath d2.
Proof.
  intros Hp1 Hp2 Hs1 Hs2 o1 o2 Ho1 Ho2 Hdiff. subst o1 o2.
  pose proof (upload_success_size _ _ _ _ _ Hp1 Ho1) as Hz1.
  pose proof (upload_success_size _ _ _ _ _ Hp2 Ho2) as Hz2.
  destruct (upload_success _ _ _ _ _ Hp1 Hz1 Ho1) as (c1 & _ & _ & ->).
  destruct (upload_success _ _ _ _ _ Hp2 Hz2 Ho2) as (c2 & _ & _ & ->).
  exists (uploaded_record env1 w1 u1 file1), (uploaded_record env2 w2 u2 file2).
  simpl. rewrite !lookup_insert_eq.
  split; [done|]. split; [done|]. split; [done|]. split; [done|].
  intros Heq. apply upload_path_inj in Heq as (? & ? & ?); [|done..].
  tauto.
Qed.

Lemma upload_paths_distinct_witness :
  let env1 := Sample.env_at no_faults 102 "" "f1" in
  let env2 := Sample.env_at no_faults 103 "" "f2" in
  let h := Some "Bearer u1" in
  let u := Sample.alice_user in
  let file := Sample.a_jpg in
  let o1 := run (upload env1 h (Some file)) Sample.w2 in
  let o2 := run (upload env2 h (Some file)) Sample.w3 in
  exists d1 d2,
    files (after o1) !! new_doc_id env1 = Some d1
    /\ files (after o2) !! new_doc_id env2 = Some d2
    /\ storagePath d1 = upload_path (uid u) (date_now env1) (originalname file)
    /\ storagePath d2 = upload_path (uid u) (date_now env2) (originalname file)
    /\ storagePath d1 <> storagePath d2.
Proof.
  intros env1 env2 h u file.
  apply (upload_paths_distinct env1 Sample.w2 h u file env2 Sample.w3 h u file).
  - vm_compute. reflexivity.
  - vm_compute. reflexivity.
  - vm_compute. reflexivity.
  - vm_compute. reflexivity.
  - unfold succeeded. vm_compute. eexists. split; reflexivity.
  - unfold succeeded. vm_compute. eexists. split; reflexivity.
  - right. left. vm_compute. discriminate.
Defined.

(** C3 as stated fails: Alice uploads a.jpg twice within one millisecond;
    both uploads succeed and both records name the same path, where the
    second object has replaced the first. *)
Lemma same_millisecond_same_path :
  ~ paths_always_distinct Sample.w2
      (Sample.env_at no_faults 102 "" "f1") (Some "Bearer u1") Sample.a_jpg
      (Sample.env_at no_faults 102 "" "f2") (Some "Bearer u1") Sample.a_jpg.
Proof.
  intros H. apply (H (ltac:(unfold succeeded; vm_compute; eexists; split; reflexivity))
                     (ltac:(unfold succeeded; vm_compute; eexists; split; reflexivity))
                     Sample.f1_doc Sample.f1_doc).
  - vm_compute. reflexivity.
  - vm_compute. reflexivity.
  - reflexivity.
Qed.

Example same_millisecond_overwrites :
  let o1 := run (upload (Sample.env_at no_faults 102 "" "f1") (Some "Bearer u1")
                   (Some Sample.a_jpg)) Sample.w2 in
  let o2 := run (upload (Sample.env_at no_faults 102 "" "f2") (Some "Bearer u1")
                   (Some Sample.a_jpg)) (after o1) in
  base.size (files (after o2)) = 2 /\ base.size (bucket (after o2)) = 1.
Proof. vm_compute. done. Qed.

(** ** Listing *)

Lemma list_run env w h user :
  principal env w h = Some user ->
  run (list_files env h) w =
    if faults env FilesQuery then
      {| response := Some {| status := 500; body := BError "Failed to fetch files" |};
         after := w; trace := [AuthGetUser; FilesQuery] |}
    else
      {| response :=
           Some {| status := 200;
                   body := BFiles (length (listing w (uid user)))
                                  (listing w (uid user)) |};
         after := w; trace := [AuthGetUser; FilesQuery] |}.
Proof.
  intros Hp. unfold run, list_files.
  rewrite (verifyToken_pass _ _ _ _ user) by done.
  unfold listing. unfold_platform. unfold_monad. simpl.
  by destruct (faults env FilesQuery).
Qed.

(** Where a record sits in a listing: once, with nothing older before it. *)
Lemma listing_position w uid id d :
  files w !! id = Some d -> userId d = uid ->
  exists l1 l2 : list (string * FileDoc),
    listing w uid = (l1 ++ (id, d) :: l2)%list
    /\ (id ∉ fst <$> (l1 ++ l2)%list)
    /\ forall x, x ∈ l1 -> (uploadedAt d <= uploadedAt (snd x))%N.
Proof.
  intros Hf Hu.
  assert ((id, d) ∈ listing w uid) as Hin by (by apply listing_elem).
  apply list_elem_of_split in Hin as (l1 & l2 & Hl).
  exists l1, l2. split; [done|].
  pose proof (listing_NoDup w uid) as Hnd.
  pose proof (listing_sorted w uid) as Hs.
  rewrite Hl in Hnd, Hs. split.
  - rewrite fmap_app, fmap_cons in Hnd. simpl in Hnd.
    apply NoDup_app in Hnd as (_ & Hd & Hnd2).
    apply NoDup_cons in Hnd2 as [Hn2 _].
    rewrite fmap_app. intros Hin. apply elem_of_app in Hin as [Hin|Hin].
    + apply (Hd id Hin). by left.
    + done.
  - intros x Hx.
    apply (StronglySorted_app_1_elem_of Platform.newer_first l1 ((id, d) :: l2) x (id, d));
      [done|done|by left].
Qed.

(** C8.  For an authenticated caller whose query the platform accepts,
    [GET /api/files] answers 200 with [count] and [files] where [files]
    holds exactly the records whose [userId] is the caller's uid, each
    once, newest first, and [count] is their number.  If the services are
    as a successful upload of the caller left them, the record of that
    upload is in the list once and nothing before it is older. *)
Theorem list_files_newest_first env w h user :
  principal env w h = Some user ->
  faults env FilesQuery = false ->
  exists fs,
    run (list_files env h) w =
      {| response := Some {| status := 200; body := BFiles (length fs) fs |};
         after := w; trace := [AuthGetUser; FilesQuery] |}
    /\ (forall id d, (id, d) ∈ fs <-> files w !! id = Some d /\ userId d = uid user)
    /\ NoDup (fst <$> fs)
    /\ StronglySorted Platform.newer_first fs
    /\ (forall env0 w0 h0 file,
          principal env0 w0 h0 = Some user ->
          succeeded (run (upload env0 h0 (Some file)) w0) ->
          w = after (run (upload env0 h0 (Some file)) w0) ->
          exists l1 l2 : list (string * FileDoc),
            fs = (l1 ++ (new_doc_id env0, uploaded_record env0 w0 user file) :: l2)%list
            /\ (new_doc_id env0 ∉ fst <$> (l1 ++ l2)%list)
            /\ forall x, x ∈ l1 -> (server_time env0 <= uploadedAt (snd x))%N).
Proof.
  intros Hp Hq. exists (listing w (uid user)).
  split; [by rewrite (list_run _ _ _ user), Hq|].
  split; [apply listing_elem|]. split; [apply listing_NoDup|].
  split; [apply listing_sorted|].
  intros env0 w0 h0 file Hp0 Hok Hw.
  pose proof (upload_success_size _ _ _ _ _ Hp0 Hok) as Hsz.
  destruct (upload_success _ _ _ _ _ Hp0 Hsz Hok) as (c & _ & _ & Hafter).
  rewrite Hafter in Hw.
  apply (listing_position w (uid user) (new_doc_id env0)
           (uploaded_record env0 w0 user file)); [|done].
  rewrite Hw. simpl. by rewrite lookup_insert_eq.
Qed.

Lemma list_files_newest_first_witness :
  let env := Sample.env_at no_faults 106 "" "" in
  let w := Sample.w6 in
  let h := Some "Bearer u1" in
  let user := Sample.alice_user in
  exists fs,
    fs = [("f9", Sample.b_doc 105); ("f0", Sample.b_doc 104); ("f1", Sample.f1_doc)]
    /\ run (list_files env h) w =
      {| response := Some {| status := 200; body := BFiles (length fs) fs |};
         after := w; trace := [AuthGetUser; FilesQuery] |}
    /\ (forall id d, (id, d) ∈ fs <-> files w !! id = Some d /\ userId d = uid user)
    /\ NoDup (fst <$> fs)
    /\ StronglySorted Platform.newer_first fs
    /\ (forall env0 w0 h0 file,
          principal env0 w0 h0 = Some user ->
          succeeded (run (upload env0 h0 (Some file)) w0) ->
          w = after (run (upload env0 h0 (Some file)) w0) ->
          exists l1 l2 : list (string * FileDoc),
            fs = (l1 ++ (new_doc_id env0, uploaded_record env0 w0 user file) :: l2)%list
            /\ (new_doc_id env0 ∉ fst <$> (l1 ++ l2)%list)
            /\ forall x, x ∈ l1 -> (server_time env0 <= uploadedAt (snd x))%N).
Proof.
  intros env w h user.
  destruct (list_files_newest_first env w h user) as (fs & Hrun & Hrest).
  - vm_compute. reflexivity.
  - reflexivity.
  - exists fs. split; [|exact (conj Hrun Hrest)].
    pose (listed := fun o : Outcome =>
                      match response o with
                      | Some {| body := BFiles _ l |} => l
                      | _ => []
                      end).
    transitivity (listed (run (list_files env h) w)).
    + exact (eq_sym (f_equal listed Hrun)).
    + vm_compute. reflexivity.
Defined.

(** Four records, three of them Alice's, with ids whose order is not the
    order of their upload: Bob's is left out, Alice's come newest first. *)
Example listing_filters_and_orders :
  files Sample.w6 = {[ "f1" := Sample.f1_doc; "f2" := Sample.f2_doc;
                       "f0" := Sample.b_doc 104; "f9" := Sample.b_doc 105 ]}
  /\ listing Sample.w6 "u1" =
       [("f9", Sample.b_doc 105); ("f0", Sample.b_doc 104); ("f1", Sample.f1_doc)]
  /\ listing Sample.w6 "u2" = [("f2", Sample.f2_doc)].
Proof. split; [|split]; vm_compute; reflexivity. Qed.

Example listing_after_upload :
  listing Sample.w3 "u1" = [("f1", Sample.f1_doc)]
  /\ listing Sample.w3 "u2" = [].
Proof. vm_compute. done. Qed.

(** ** The upload counter over sequences of requests *)







Lemma owned_insert_same fs id doc uid :
  fs !! id = None -> userId doc = uid ->
  owned (<[id := doc]> fs) uid = S (owned fs uid).
Proof.
  intros Hid Hu. unfold owned. rewrite map_filter_insert_True by done.
  apply map_size_insert_None. apply map_lookup_filter_None. by left.
Qed.

Lemma owned_insert_other fs id doc uid :
  fs !! id = None -> userId doc <> uid ->
  owned (<[id := doc]> fs) uid = owned fs uid.
Proof.
  intros Hid Hu. unfold owned. rewrite map_filter_insert_not'; [done|done|].
  intros y Hy. by rewrite Hid in Hy.
Qed.

Lemma owned_delete_same fs id doc uid :
  fs !! id = Some doc -> userId doc = uid ->
  S (owned (delete id fs) uid) = owned fs uid.
Proof.
  intros Hid Hu. unfold owned. rewrite map_filter_delete.
  assert (filter (fun kv : string * FileDoc => userId (snd kv) = uid) fs !! id
          = Some doc) as Hin by (by apply map_lookup_filter_Some).
  rewrite map_size_delete, Hin.
  pose proof (map_size_ne_0_lookup_2 _ id (mk_is_Some _ _ Hin)) as Hne.
  simpl. lia.
Qed.

Lemma owned_delete_other fs id doc uid :
  fs !! id = Some doc -> userId doc <> uid ->
  owned (delete id fs) uid = owned fs uid.
Proof.
  intros Hid Hu. unfold owned. rewrite map_filter_delete_not; [done|].
  intros y Hy. rewrite Hid in Hy. by injection Hy as <-.
Qed.

Lemma owned_none fs uid :
  (forall id doc, fs !! id = Some doc -> userId doc <> uid) ->
  owned fs uid = 0.
Proof.
  intros H. unfold owned. rewrite map_empty_filter_2; [done|].
  intros id doc Hid. by apply (H id doc).
Qed.

Lemma find_uid_app a b t :
  is_Some (Platform.find_uid a t) -> is_Some (Platform.find_uid (a ++ b) t).
Proof.
  unfold Platform.find_uid. induction a as [|x a IH]; simpl.
  - by intros [??].
  - destruct (bool_decide (ur_uid x = t)); [eauto|done].
Qed.

Lemma principal_known env w h user :
  principal env w h = Some user ->
  is_Some (Platform.find_uid (auth w) (uid user)).
Proof.
  unfold principal. destruct (bearer h) as [t|]; [|done].
  destruct (faults env AuthGetUser); [done|].
  destruct (Platform.find_uid (auth w) t) as [u|] eqn:Hu; [|done].
  simpl. intros [= <-]. simpl. rewrite (find_uid_Some _ _ _ Hu). eauto.
Qed.







Example negative_counter :
  uploads <$> users Sample.w_negative !! "u1" = Some (-1)%Z
  /\ files Sample.w_negative = ∅.
Proof. vm_compute. done. Qed.

(** * Further properties of the handlers *)

(** ** Signup and login, stage by stage *)

Lemma signup_run env w req e p :
  b_email req = Some e -> b_password req = Some p ->
  e <> "" -> p <> "" ->
  run (signup env req) w = signup_outcome env w e p (requested_name req e).
Proof.
  intros He Hp Hne Hnp. unfold run, signup, signup_outcome, requested_name.
  rewrite He, Hp, (truthy_nonempty e Hne), (truthy_nonempty p Hnp).
  cbn [negb orb]. change (default "" (Some e)) with e.
  change (default "" (Some p)) with p.
  unfold Platform.createUser, Platform.users_set, new_record, new_doc.
  unfold_monad. simpl.
  destruct (faults env AuthCreateUser); simpl; [done|].
  destruct (Platform.valid_email e); simpl; [|done].
  destruct (Platform.valid_password p); simpl; [|done].
  destruct (Platform.find_email (auth w) e); simpl; [done|].
  destruct (Platform.find_uid (auth w) (new_uid env)); simpl; [done|].
  destruct (faults env UsersSet); simpl; done.
Qed.

Lemma login_run env w req e p :
  b_email req = Some e -> b_password req = Some p ->
  e <> "" -> p <> "" ->
  run (login env req) w = login_outcome env w e.
Proof.
  intros He Hp Hne Hnp. unfold run, login, login_outcome, login_ok.
  rewrite He, Hp, (truthy_nonempty e Hne), (truthy_nonempty p Hnp).
  cbn [negb orb]. change (default "" (Some e)) with e.
  unfold Platform.getUserByEmail, Platform.createCustomToken, Platform.users_get.
  unfold_monad. simpl.
  destruct (faults env AuthGetUserByEmail); simpl; [done|].
  destruct (Platform.find_email (auth w) e); simpl; [|done].
  destruct (faults env AuthCreateCustomToken); simpl; [done|].
  destruct (faults env UsersGet); simpl; done.
Qed.

(** ** Requests that are turned away *)

Lemma verifyToken_refusal env h next w :
  principal env w h = None ->
  run (verifyToken env h next) w = refusal w h.
Proof.
  unfold principal, refusal, run, verifyToken. unfold bearer.
  unfold_platform. unfold_monad.
  destruct (Js.truthy h); simpl; [|done].
  destruct (Js.truthy (Js.index _ 1)) eqn:Ht; simpl; [|done].
  destruct (Js.index _ 1) as [t|]; [|done]. simpl.
  destruct (faults env AuthGetUser); simpl; [done|].
  destruct (Platform.find_uid (auth w) t); simpl; done.
Qed.

Lemma handle_refused env req w h :
  protected_header req = Some h ->
  principal env w h = None ->
  run (handle env req) w = refusal w h.
Proof.
  intros Hh Hp.
  destruct req; simpl in Hh; try discriminate; injection Hh as ->; simpl;
    by apply verifyToken_refusal.
Qed.

(** X1.  A request to a protected route that [verifyToken] does not let
    through is answered 401, reaches none of the services apart from the
    identity lookup, and leaves all of them as they were. *)
Theorem unauthenticated_request_refused env req w h :
  protected_header req = Some h ->
  principal env w h = None ->
  let o := run (handle env req) w in
  (exists b, response o = Some {| status := 401; body := b |})
  /\ after o = w
  /\ (forall op, In op (trace o) -> op = AuthGetUser).
Proof.
  intros Hh Hp o. subst o. rewrite (handle_refused _ _ _ h) by done.
  unfold refusal. destruct (negb (Js.truthy h)); simpl.
  - split; [by eexists|]. split; [done|]. by intros op [].
  - destruct (bearer h); simpl.
    + split; [by eexists|]. split; [done|]. by intros op [<-|[]].
    + split; [by eexists|]. split; [done|]. by intros op [].
Qed.

Lemma unauthenticated_request_refused_witness :
  let env := Sample.env_at no_faults 104 "" "" in
  let req := DeleteFile (Some "Bearer nobody") "f1" in
  let w := Sample.w3 in
  let o := run (handle env req) w in
  (exists b, response o = Some {| status := 401; body := b |})
  /\ after o = w
  /\ (forall op, In op (trace o) -> op = AuthGetUser).
Proof.
  intros env req w.
  apply (unauthenticated_request_refused env req w (Some "Bearer nobody"));
    vm_compute; reflexivity.
Defined.

(** X2.  A protected route asked without an Authorization header, with an
    empty one, or with one that yields no token after ["Bearer "], is
    answered 401 before any platform call; the two cases get the messages
    "No authorization header provided" and "No token provided". *)
Theorem missing_token_refused env req w h :
  protected_header req = Some h ->
  bearer h = None ->
  let o := run (handle env req) w in
  trace o = [] /\ after o = w
  /\ response o =
       Some {| status := 401;
               body := BError (if Js.truthy h then "No token provided"
                               else "No authorization header provided") |}.
Proof.
  intros Hh Hb o. subst o.
  rewrite (handle_refused _ _ _ h); [|done|by unfold principal; rewrite Hb].
  unfold refusal. rewrite Hb. by destruct (Js.truthy h).
Qed.

Lemma missing_token_refused_witness :
  let env := Sample.env_at no_faults 104 "" "" in
  let req := ListFiles (Some "u1") in
  let w := Sample.w3 in
  let h := Some "u1" in
  let o := run (handle env req) w in
  trace o = [] /\ after o = w
  /\ response o =
       Some {| status := 401;
               body := BError (if Js.truthy h then "No token provided"
                               else "No authorization header provided") |}.
Proof.
  intros env req w h.
  apply (missing_token_refused env req w h); vm_compute; reflexivity.
Defined.

(** X3.  [verifyToken] takes the text after ["Bearer "] as a uid: a header
    made of ["Bearer "] and the uid of a registered user authenticates the
    request as that user, with nothing else checked. *)
Theorem uid_as_bearer_token env w t u :
  t <> "" ->
  Js.split "Bearer " t = [t] ->
  faults env AuthGetUser = false ->
  Platform.find_uid (auth w) t = Some u ->
  principal env w (Some ("Bearer " +:+ t)) =
    Some {| uid := t; user_email := ur_email u |}.
Proof.
  intros Ht Hs Hf Hu. unfold principal, bearer.
  change (Js.truthy (Some ("Bearer " +:+ t))) with true. cbv iota.
  change (default "" (Some ("Bearer " +:+ t))) with ("Bearer " +:+ t).
  change (Js.split "Bearer " ("Bearer " +:+ t))
    with ("" :: Js.split "Bearer " t).
  rewrite Hs. unfold Js.index. change (["" ; t] !! 1) with (Some t).
  rewrite (truthy_nonempty t Ht). rewrite Hf, Hu. simpl.
  by rewrite (find_uid_Some _ _ _ Hu).
Qed.

Lemma uid_as_bearer_token_witness :
  principal (Sample.env_at no_faults 104 "" "") Sample.w3
    (Some ("Bearer " +:+ "u2")) =
    Some {| uid := "u2"; user_email := ur_email
              {| ur_uid := "u2"; ur_email := "bob@example.com";
                 ur_displayName := "Bob"; ur_password := "hunter22" |} |}.
Proof.
  apply (uid_as_bearer_token (Sample.env_at no_faults 104 "" "") Sample.w3 "u2"
           {| ur_uid := "u2"; ur_email := "bob@example.com";
              ur_displayName := "Bob"; ur_password := "hunter22" |});
    vm_compute; congruence.
Defined.

(** X4.  Signup and login answer 400 "Email and password are required"
    when the e-mail or the password is absent or empty, without calling the
    platform. *)
Theorem credentials_required env w req :
  Js.truthy (b_email req) = false \/ Js.truthy (b_password req) = false ->
  run (signup env req) w = fields_required w
  /\ run (login env req) w = fields_required w.
Proof.
  intros H. unfold run, signup, login, fields_required.
  assert (negb (Js.truthy (b_email req)) || negb (Js.truthy (b_password req))
          = true) as ->.
  { destruct H as [-> | ->]; [done|]. apply orb_true_r. }
  done.
Qed.

Lemma credentials_required_witness :
  let env := Sample.env_at no_faults 104 "u9" "" in
  let req := {| b_email := Some "carol@example.com"; b_password := Some "";
                b_displayName := None |} in
  run (signup env req) Sample.w3 = fields_required Sample.w3
  /\ run (login env req) Sample.w3 = fields_required Sample.w3.
Proof.
  intros env req. apply (credentials_required env Sample.w3 req).
  right. reflexivity.
Defined.

(** ** Signup *)

Lemma find_email_app_new a u :
  Platform.find_email a (ur_email u) = None ->
  Platform.find_email (a ++ [u]) (ur_email u) = Some u.
Proof.
  unfold Platform.find_email. induction a as [|x a IH]; simpl.
  - by rewrite bool_decide_eq_true_2.
  - destruct (bool_decide (ur_email x = ur_email u)); [done|]. apply IH.
Qed.

Lemma valid_email_nonempty e : Platform.valid_email e = true -> e <> "".
Proof. by intros H ->. Qed.

Lemma valid_password_nonempty p : Platform.valid_password p = true -> p <> "".
Proof. by intros H ->. Qed.

Lemma valid_email_name e :
  Platform.valid_email e = true ->
  default "" (Js.index (Js.split "@" e) 0) <> "".
Proof.
  unfold Platform.valid_email.
  destruct (Js.split "@" e) as [|a [|b [|??]]]; try done.
  intros H. apply andb_true_iff in H as [Ha _].
  apply negb_true_iff, bool_decide_eq_false in Ha. done.
Qed.

Lemma requested_name_nonempty req e :
  Platform.valid_email e = true -> requested_name req e <> "".
Proof.
  intros He. unfold requested_name, Js.or_else.
  destruct (b_displayName req) as [[|c s]|]; try done;
    by apply valid_email_name.
Qed.

(** X5.  Signup treats an empty [displayName] like an absent one, and a
    non-empty one is what a signup answered 201 has given to the identity
    record, to the [users] document and to the response. *)
Theorem signup_display_name env w e p :
  e <> "" -> p <> "" ->
  run (signup env (auth_body e p (Some ""))) w
    = run (signup env (auth_body e p None)) w
  /\ (forall dn r,
        dn <> "" ->
        let o := run (signup env (auth_body e p (Some dn))) w in
        response o = Some r -> status r = 201 ->
        body r = BSignup (new_uid env) e dn
        /\ Platform.find_uid (auth (after o)) (new_uid env)
             = Some (new_record env e p dn)
        /\ users (after o) !! new_uid env = Some (new_doc env e dn)).
Proof.
  intros He Hp. split.
  - by rewrite !(signup_run _ _ _ e p).
  - intros dn r Hdn o. subst o. rewrite (signup_run _ _ _ e p) by done.
    assert (requested_name (auth_body e p (Some dn)) e = dn) as ->
      by (by destruct dn).
    unfold signup_outcome.
    destruct (faults env AuthCreateUser); [by intros [= <-]|].
    destruct (negb (Platform.valid_email e)); [by intros [= <-]|].
    destruct (negb (Platform.valid_password p)); [by intros [= <-]|].
    destruct (bool_decide (is_Some (Platform.find_email (auth w) e)));
      [by intros [= <-]|].
    destruct (bool_decide (is_Some (Platform.find_uid (auth w) (new_uid env))))
      eqn:Hu; [by intros [= <-]|].
    destruct (faults env UsersSet); [by intros [= <-]|].
    simpl. intros [= <-] _. split; [done|]. split.
    + apply (find_uid_app_new (auth w) (new_record env e p dn)).
      apply bool_decide_eq_false in Hu. simpl.
      destruct (Platform.find_uid (auth w) (new_uid env)); [|done].
      destruct Hu. eauto.
    + by rewrite lookup_insert_eq.
Qed.

Lemma signup_display_name_witness :
  let env := Sample.env_at no_faults 104 "u3" "" in
  let w := Sample.w3 in
  let e := "carol@example.com" in
  let p := "carol123" in
  run (signup env (auth_body e p (Some ""))) w
    = run (signup env (auth_body e p None)) w
  /\ (forall dn r,
        dn <> "" ->
        let o := run (signup env (auth_body e p (Some dn))) w in
        response o = Some r -> status r = 201 ->
        body r = BSignup (new_uid env) e dn
        /\ Platform.find_uid (auth (after o)) (new_uid env)
             = Some (new_record env e p dn)
        /\ users (after o) !! new_uid env = Some (new_doc env e dn)).
Proof.
  intros env w e p. apply (signup_display_name env w e p); vm_compute; congruence.
Defined.

(** X6.  A signup for an e-mail that is already registered is answered 400
    with the provider's error and changes nothing. *)
Theorem signup_duplicate_email env w e p dn u :
  Platform.valid_email e = true ->
  Platform.valid_password p = true ->
  faults env AuthCreateUser = false ->
  Platform.find_email (auth w) e = Some u ->
  run (signup env (auth_body e p dn)) w = signup_refused w EmailAlreadyExists.
Proof.
  intros He Hp Hf Hu.
  rewrite (signup_run _ _ _ e p);
    [|done|done|by apply valid_email_nonempty|by apply valid_password_nonempty].
  unfold signup_outcome, signup_refused. rewrite Hf, He, Hp, Hu. done.
Qed.

Lemma signup_duplicate_email_witness :
  let env := Sample.env_at no_faults 104 "u3" "" in
  run (signup env (auth_body "alice@example.com" "another1" None)) Sample.w3
    = signup_refused Sample.w3 EmailAlreadyExists.
Proof.
  intros env.
  apply (signup_duplicate_email env Sample.w3 "alice@example.com" "another1" None
           {| ur_uid := "u1"; ur_email := "alice@example.com";
              ur_displayName := "alice"; ur_password := "secret1" |});
    vm_compute; reflexivity.
Defined.



(** ** Login and the read-only routes *)

(** X8.  A login for an e-mail nobody registered is answered 401 "Invalid
    credentials" after the identity lookup alone: no token is minted and no
    service changes. *)
Theorem login_unknown_email env w e p :
  e <> "" -> p <> "" ->
  Platform.find_email (auth w) e = None ->
  run (login env (auth_body e p None)) w =
    {| response := Some {| status := 401; body := BError "Invalid credentials" |};
       after := w; trace := [AuthGetUserByEmail] |}.
Proof.
  intros He Hp Hu. rewrite (login_run _ _ _ e p) by done.
  unfold login_outcome. rewrite Hu. by destruct (faults env AuthGetUserByEmail).
Qed.

Lemma login_unknown_email_witness :
  let env := Sample.env_at no_faults 104 "" "" in
  run (login env (auth_body "mallory@example.com" "guess" None)) Sample.w3 =
    {| response := Some {| status := 401; body := BError "Invalid credentials" |};
       after := Sample.w3; trace := [AuthGetUserByEmail] |}.
Proof.
  intros env.
  apply (login_unknown_email env Sample.w3 "mallory@example.com" "guess");
    vm_compute; congruence.
Defined.

(** X9.  After a signup answered 201, a login for the same e-mail with any
    non-empty password is answered 200 (the platform accepting its calls)
    with the new uid, the display name the signup stored and an upload
    count of 0. *)
Theorem login_after_signup env w e p dn env' p' :
  Platform.valid_email e = true ->
  Platform.valid_password p = true ->
  succeeded_with 201 (run (signup env (auth_body e p dn)) w) ->
  p' <> "" ->
  faults env' AuthGetUserByEmail = false ->
  faults env' AuthCreateCustomToken = false ->
  faults env' UsersGet = false ->
  let w' := after (run (signup env (auth_body e p dn)) w) in
  response (run (login env' (auth_body e p' None)) w') =
    Some {| status := 200;
            body := BLogin (Platform.CustomToken (new_uid env) (date_now env'))
                      (new_uid env) e (requested_name (auth_body e p dn) e) 0 |}.
Proof.
  intros He Hp Hok Hp' Hf1 Hf2 Hf3 w'.
  pose proof (valid_email_nonempty e He) as Hne.
  pose proof (valid_password_nonempty p Hp) as Hnp.
  pose proof (requested_name_nonempty (auth_body e p dn) e He) as Hname.
  set (name := requested_name (auth_body e p dn) e) in *.
  assert (Platform.find_email (auth w) e = None /\
          w' = set_users (<[new_uid env := new_doc env e name]> (users w))
                 (set_auth (auth w ++ [new_record env e p name]) w))
    as [Hfe Hw'].
  { subst w'. revert Hok. rewrite (signup_run _ _ _ e p) by done.
    fold name. unfold signup_outcome, succeeded_with.
    destruct (faults env AuthCreateUser); [by intros (r & [= <-] & ?)|].
    destruct (negb (Platform.valid_email e)); [by intros (r & [= <-] & ?)|].
    destruct (negb (Platform.valid_password p)); [by intros (r & [= <-] & ?)|].
    destruct (Platform.find_email (auth w) e); [by intros (r & [= <-] & ?)|].
    destruct (bool_decide _); [by intros (r & [= <-] & ?)|].
    destruct (bool_decide _); [by intros (r & [= <-] & ?)|].
    destruct (faults env UsersSet); [by intros (r & [= <-] & ?)|].
    done. }
  rewrite (login_run _ _ _ e p') by done.
  pose proof (find_email_app_new (auth w) (new_record env e p name) Hfe) as Hdup.
  cbn [ur_email new_record] in Hdup.
  unfold login_outcome, login_ok. rewrite Hf1, Hf2, Hf3, Hw'.
  cbn [auth users set_auth set_users]. rewrite Hdup.
  cbn [ur_uid ur_email new_record]. rewrite lookup_insert_eq. simpl.
  by destruct name.
Qed.

Lemma login_after_signup_witness :
  let env := Sample.env_at no_faults 100 "u1" "" in
  let env' := Sample.env_at no_faults 104 "" "" in
  let w := Sample.w0 in
  let e := "alice@example.com" in
  let p := "secret1" in
  let dn : option string := None in
  let w' := after (run (signup env (auth_body e p dn)) w) in
  response (run (login env' (auth_body e "anything" None)) w') =
    Some {| status := 200;
            body := BLogin (Platform.CustomToken (new_uid env) (date_now env'))
                      (new_uid env) e (requested_name (auth_body e p dn) e) 0 |}.
Proof.
  intros env env' w e p dn.
  apply (login_after_signup env w e p dn env' "anything");
    try (vm_compute; congruence).
  unfold succeeded_with. vm_compute. eexists. split; reflexivity.
Defined.

Lemma login_unchanged env req w : after (run (login env req) w) = w.
Proof.
  unfold run, login.
  destruct (negb (Js.truthy (b_email req)) || negb (Js.truthy (b_password req)));
    [done|].
  unfold Platform.getUserByEmail, Platform.createCustomToken, Platform.users_get.
  unfold_monad. simpl.
  destruct (faults env AuthGetUserByEmail); simpl; [done|].
  destruct (Platform.find_email (auth w) _); simpl; [|done].
  destruct (faults env AuthCreateCustomToken); simpl; [done|].
  destruct (faults env UsersGet); simpl; done.
Qed.

Lemma refusal_unchanged w h : after (refusal w h) = w.
Proof.
  unfold refusal. destruct (negb (Js.truthy h)); [done|]. by destruct (bearer h).
Qed.

Lemma list_unchanged env h w : after (run (list_files env h) w) = w.
Proof.
  destruct (principal env w h) as [user|] eqn:Hp.
  - rewrite (list_run _ _ _ user) by done. by destruct (faults env FilesQuery).
  - unfold list_files. rewrite verifyToken_refusal by done.
    apply refusal_unchanged.
Qed.

(** X10.  Login and the file listing only read: whatever the request and
    whatever the platform does, every service is afterwards as it was. *)
Theorem read_only_routes env w :
  (forall req, after (run (login env req) w) = w)
  /\ (forall h, after (run (list_files env h) w) = w).
Proof.
  split; [intros req; apply login_unchanged|intros h; apply list_unchanged].
Qed.

(** ** Upload, stage by stage *)

(** X11.  An authenticated upload request that carries no file is answered
    400 "No file uploaded" and touches neither the bucket nor a
    collection. *)
Theorem upload_without_file env w h user :
  principal env w h = Some user ->
  run (upload env h None) w =
    {| response := Some {| status := 400; body := BError "No file uploaded" |};
       after := w; trace := [AuthGetUser] |}.
Proof.
  intros Hp. unfold run, upload.
  by rewrite (verifyToken_pass _ _ _ _ user) by done.
Qed.

Lemma upload_without_file_witness :
  run (upload (Sample.env_at no_faults 104 "" "f2") (Some "Bearer u1") None)
      Sample.w3 =
    {| response := Some {| status := 400; body := BError "No file uploaded" |};
       after := Sample.w3; trace := [AuthGetUser] |}.
Proof.
  apply (upload_without_file _ _ _ Sample.alice_user). vm_compute. reflexivity.
Defined.

(** X12.  A file larger than the 5 MB limit of the multer configuration
    never reaches the handler: nothing is written to the bucket or to a
    collection and the upload is not answered 200. *)
Theorem oversize_upload_not_stored env w h user file :
  principal env w h = Some user ->
  (5 * 1024 * 1024 < size file)%N ->
  let o := run (upload env h (Some file)) w in
  after o = w /\ trace o = [AuthGetUser] /\ ~ succeeded o.
Proof.
  intros Hp Hsz o. subst o.
  rewrite (upload_oversize _ _ _ user) by (done || by apply N.lt_le_incl). simpl.
  split; [done|]. split; [done|]. intros (r & [= <-] & Hs). discriminate.
Qed.

Lemma oversize_upload_not_stored_witness :
  let env := Sample.env_at no_faults 104 "" "f2" in
  let file := {| originalname := "big.bin"; mimetype := "application/octet-stream";
                 size := 5242881; buffer := "" |} in
  let o := run (upload env (Some "Bearer u1") (Some file)) Sample.w3 in
  after o = Sample.w3 /\ trace o = [AuthGetUser] /\ ~ succeeded o.
Proof.
  intros env file.
  apply (oversize_upload_not_stored env Sample.w3 (Some "Bearer u1")
           Sample.alice_user file); vm_compute; reflexivity.
Defined.

(** X13.  When every stage of an upload of a file under the size limit is
    accepted and the store assigns an id not in use, the answer is 200 with
    the new record's id, the file's name, size and type and the public URL
    [https://storage.googleapis.com/<bucket>/<path>]; the object is in the
    bucket under the path, public; the record is in [files] under the id;
    the uploader's counter is one higher; no other object, record or
    counter changes and the identity table is untouched. *)
Theorem upload_accepted env w h user file d :
  object_written env w h user file ->
  faults env FilesAdd = false ->
  Platform.is_doc_id (new_doc_id env) = true ->
  files w !! new_doc_id env = None ->
  faults env UsersUpdate = false ->
  users w !! uid user = Some d ->
  let o := run (upload env h (Some file)) w in
  let path := upload_path (uid user) (date_now env) (originalname file) in
  let url := "https://storage.googleapis.com/" +:+ bucket_name w +:+ "/" +:+ path in
  response o =
    Some {| status := 200;
            body := BUpload (new_doc_id env) (originalname file) (size file)
                      url (mimetype file) |}
  /\ bucket (after o) = <[path := uploaded_object user file]> (bucket w)
  /\ files (after o) =
       <[new_doc_id env := uploaded_record env w user file]> (files w)
  /\ users (after o) = <[uid user := Platform.add_uploads 1 d]> (users w)
  /\ auth (after o) = auth w
  /\ storagePath (uploaded_record env w user file) = path
  /\ publicUrl (uploaded_record env w user file) = url.
Proof.
  intros Hw Ha Hi Hid Hu Hd o path url. subst o.
  destruct Hw as (Hp & Hsz & Hbw & Hmp).
  rewrite (upload_run _ _ _ user) by done.
  unfold upload_outcome, record_create_fails, counter_doc.
  rewrite Hbw, Hmp, Ha, Hi, Hid, Hu, Hd. done.
Qed.

Lemma upload_accepted_witness :
  let env := Sample.env_at no_faults 102 "" "f1" in
  let w := Sample.w2 in
  let h := Some "Bearer u1" in
  let user := Sample.alice_user in
  let file := Sample.a_jpg in
  let d := Sample.alice_doc 0 in
  let o := run (upload env h (Some file)) w in
  let path := upload_path (uid user) (date_now env) (originalname file) in
  let url := "https://storage.googleapis.com/" +:+ bucket_name w +:+ "/" +:+ path in
  response o =
    Some {| status := 200;
            body := BUpload (new_doc_id env) (originalname file) (size file)
                      url (mimetype file) |}
  /\ bucket (after o) = <[path := uploaded_object user file]> (bucket w)
  /\ files (after o) =
       <[new_doc_id env := uploaded_record env w user file]> (files w)
  /\ users (after o) = <[uid user := Platform.add_uploads 1 d]> (users w)
  /\ auth (after o) = auth w
  /\ storagePath (uploaded_record env w user file) = path
  /\ publicUrl (uploaded_record env w user file) = url.
Proof.
  intros env w h user file d.
  apply (upload_accepted env w h user file d).
  - apply sample_object_written; reflexivity.
  - reflexivity.
  - vm_compute. reflexivity.
  - vm_compute. reflexivity.
  - reflexivity.
  - vm_compute. reflexivity.
Defined.

(** X14.  When [makePublic] is rejected after the write of a file under
    the size limit, the object stays in the bucket, not public; no record
    is created, no counter changes and no response is sent. *)
Theorem upload_make_public_rejected env w h user file :
  principal env w h = Some user ->
  (size file < fileSize_limit)%N ->
  faults env BucketWrite = false ->
  faults env BucketMakePublic = true ->
  let o := run (upload env h (Some file)) w in
  let path := upload_path (uid user) (date_now env) (originalname file) in
  response o = None
  /\ trace o = [AuthGetUser; BucketWrite; BucketMakePublic]
  /\ (exists obj, bucket (after o) !! path = Some obj /\ so_public obj = false
                  /\ so_data obj = buffer file)
  /\ files (after o) = files w
  /\ users (after o) = users w.
Proof.
  intros Hp Hsz Hbw Hmp o path. subst o.
  rewrite (upload_run _ _ _ user) by done.
  unfold upload_outcome. rewrite Hbw, Hmp. simpl.
  split; [done|]. split; [done|]. split; [|done].
  eexists. rewrite lookup_insert_eq. done.
Qed.

Lemma upload_make_public_rejected_witness :
  let env := Sample.env_at (Sample.only BucketMakePublic) 102 "" "f1" in
  let w := Sample.w2 in
  let h := Some "Bearer u1" in
  let user := Sample.alice_user in
  let file := Sample.a_jpg in
  let o := run (upload env h (Some file)) w in
  let path := upload_path (uid user) (date_now env) (originalname file) in
  response o = None
  /\ trace o = [AuthGetUser; BucketWrite; BucketMakePublic]
  /\ (exists obj, bucket (after o) !! path = Some obj /\ so_public obj = false
                  /\ so_data obj = buffer file)
  /\ files (after o) = files w
  /\ users (after o) = users w.
Proof.
  intros env w h user file.
  apply (upload_make_public_rejected env w h user file); vm_compute; congruence.
Defined.

(** ** Delete, stage by stage *)

Lemma is_doc_id_ref id :
  Platform.is_doc_id id = true ->
  Platform.doc_ref id = inr (Platform.TopDoc id).
Proof.
  unfold Platform.is_doc_id.
  destruct (Platform.doc_ref id) as [e|[k|]]; try done.
  intros Hk. apply bool_decide_eq_true in Hk. by subst.
Qed.

Lemma delete_after_object env w h user fileId doc :
  object_deleted env w h user fileId doc ->
  run (delete_file env h fileId) w =
    let w1 := set_bucket (delete (storagePath doc) (bucket w)) w in
    if faults env FilesDelete then
      {| response := delete_failed; after := w1;
         trace := [AuthGetUser; FilesGet; BucketDelete; FilesDelete] |}
    else
      let w2 := set_files (delete fileId (files w)) w1 in
      match counter_doc env w (uid user) with
      | None =>
          {| response := delete_failed; after := w2;
             trace := [AuthGetUser; FilesGet; BucketDelete; FilesDelete;
                       UsersUpdate] |}
      | Some d =>
          {| response :=
               Some {| status := 200; body := BMessage "File deleted successfully" |};
             after := set_users
                        (<[uid user := Platform.add_uploads (-1) d]> (users w)) w2;
             trace := [AuthGetUser; FilesGet; BucketDelete; FilesDelete;
                       UsersUpdate] |}
      end.
Proof.
  intros (Hi & Hp & Hg & Hf & Ho & Hb & [ob Hob]).
  rewrite (delete_run_key _ _ _ user fileId fileId)
    by (done || by apply is_doc_id_ref).
  unfold delete_outcome.
  rewrite Hg, Hf, Hb, Hob. rewrite bool_decide_eq_true_2 by done. done.
Qed.

(** A record whose object is missing cannot be deleted. *)
Lemma delete_without_object env w h user fileId key doc :
  principal env w h = Some user ->
  Platform.doc_ref fileId = inr (Platform.TopDoc key) ->
  files w !! key = Some doc ->
  userId doc = uid user ->
  bucket w !! storagePath doc = None ->
  response (run (delete_file env h fileId) w) = delete_failed
  /\ after (run (delete_file env h fileId) w) = w.
Proof.
  intros Hp Hk Hf Ho Hb. rewrite (delete_run_key _ _ _ user fileId key) by done.
  unfold delete_outcome. destruct (faults env FilesGet); [done|].
  rewrite Hf, Hb. rewrite bool_decide_eq_true_2 by done. simpl.
  by rewrite orb_true_r.
Qed.

(** X15.  When every stage of a delete of a record by its id is accepted,
    the answer is 200
    "File deleted successfully"; the object is gone from the bucket, the
    record from [files], the owner's counter is one lower, and nothing else
    changes. *)
Theorem delete_accepted env w h user fileId doc d :
  object_deleted env w h user fileId doc ->
  faults env FilesDelete = false ->
  faults env UsersUpdate = false ->
  users w !! uid user = Some d ->
  let o := run (delete_file env h fileId) w in
  response o =
    Some {| status := 200; body := BMessage "File deleted successfully" |}
  /\ bucket (after o) = delete (storagePath doc) (bucket w)
  /\ files (after o) = delete fileId (files w)
  /\ users (after o) = <[uid user := Platform.add_uploads (-1) d]> (users w)
  /\ auth (after o) = auth w.
Proof.
  intros Hd Hf Hu Hdoc o. subst o.
  rewrite (delete_after_object _ _ _ user fileId doc) by done.
  unfold counter_doc. rewrite Hf, Hu, Hdoc. done.
Qed.


(** X17.  When the record delete is rejected after the object was removed,
    the delete answers 500 with the object gone and the record and the
    counter still there.  In that state, and in every state in which the
    record is there and no object is at its path, a delete of the record by
    its owner answers 500 and changes nothing. *)
Theorem delete_record_rejected env w h user fileId doc :
  object_deleted env w h user fileId doc ->
  faults env FilesDelete = true ->
  let o := run (delete_file env h fileId) w in
  response o = delete_failed
  /\ bucket (after o) = delete (storagePath doc) (bucket w)
  /\ files (after o) = files w
  /\ users (after o) = users w
  /\ files (after o) !! fileId = Some doc
  /\ bucket (after o) !! storagePath doc = None
  /\ (forall w' env' h',
        principal env' w' h' = Some user ->
        files w' !! fileId = Some doc ->
        bucket w' !! storagePath doc = None ->
        response (run (delete_file env' h' fileId) w') = delete_failed
        /\ after (run (delete_file env' h' fileId) w') = w').
Proof.
  intros Hd Hf o. subst o.
  rewrite (delete_after_object _ _ _ user fileId doc) by done.
  rewrite Hf. simpl. destruct Hd as (Hi & _ & _ & Hdoc & Ho & _).
  split; [done|]. split; [done|]. split; [done|]. split; [done|].
  split; [done|]. split; [apply lookup_delete_eq|].
  intros w' env' h' Hp' Hf' Hb'.
  apply (delete_without_object env' w' h' user fileId fileId doc); try done.
  by apply is_doc_id_ref.
Qed.

(** X18.  When the counter update is rejected at the end of a delete, the
    delete answers 500 although the object and the record are gone; the
    counter keeps its value. *)
Theorem delete_counter_rejected env w h user fileId doc :
  object_deleted env w h user fileId doc ->
  faults env FilesDelete = false ->
  faults env UsersUpdate = true ->
  let o := run (delete_file env h fileId) w in
  response o = delete_failed
  /\ bucket (after o) !! storagePath doc = None
  /\ files (after o) !! fileId = None
  /\ users (after o) = users w.
Proof.
  intros Hd Hf Hu o. subst o.
  rewrite (delete_after_object _ _ _ user fileId doc) by done.
  unfold counter_doc. rewrite Hf, Hu. simpl.
  by rewrite !lookup_delete_eq.
Qed.

Lemma sample_object_deleted bad :
  bad AuthGetUser = false -> bad FilesGet = false -> bad BucketDelete = false ->
  object_deleted (Sample.env_at bad 103 "" "") Sample.w3 (Some "Bearer u1")
    Sample.alice_user "f1" Sample.f1_doc.
Proof.
  intros H1 H2 H3. split; [|split; [|split; [|split; [|split; [|split]]]]].
  - reflexivity.
  - unfold principal. simpl faults. rewrite H1. by vm_compute.
  - exact H2.
  - by vm_compute.
  - reflexivity.
  - exact H3.
  - vm_compute. eauto.
Qed.

Lemma delete_accepted_witness :
  let env := Sample.env_at no_faults 103 "" "" in
  let w := Sample.w3 in
  let h := Some "Bearer u1" in
  let user := Sample.alice_user in
  let doc := Sample.f1_doc in
  let d := Sample.alice_doc 1 in
  let o := run (delete_file env h "f1") w in
  response o =
    Some {| status := 200; body := BMessage "File deleted successfully" |}
  /\ bucket (after o) = delete (storagePath doc) (bucket w)
  /\ files (after o) = delete "f1" (files w)
  /\ users (after o) = <[uid user := Platform.add_uploads (-1) d]> (users w)
  /\ auth (after o) = auth w.
Proof.
  intros env w h user doc d.
  apply (delete_accepted env w h user "f1" doc d).
  - apply sample_object_deleted; reflexivity.
  - reflexivity.
  - reflexivity.
  - vm_compute. reflexivity.
Defined.


(** [DELETE /api/files/a%2Fb]: the id is no document path, the handler's
    catch answers before any lookup. *)
Example delete_malformed_id :
  run (delete_file (Sample.env_at no_faults 103 "" "") (Some "Bearer u1") "a/b")
      Sample.w3 =
    {| response := Some {| status := 500; body := BError "Failed to delete file" |};
       after := Sample.w3; trace := [AuthGetUser] |}.
Proof. vm_compute. reflexivity. Qed.

(** [DELETE /api/files/a%2Fb%2Fc]: a document path below a record, where
    this program writes nothing. *)
Example delete_nested_id :
  run (delete_file (Sample.env_at no_faults 103 "" "") (Some "Bearer u1") "f1/b/c")
      Sample.w3 =
    {| response := Some {| status := 404; body := BError "File not found" |};
       after := Sample.w3; trace := [AuthGetUser; FilesGet] |}.
Proof. vm_compute. reflexivity. Qed.

Lemma delete_record_rejected_witness :
  let env := Sample.env_at (Sample.only FilesDelete) 103 "" "" in
  let w := Sample.w3 in
  let h := Some "Bearer u1" in
  let user := Sample.alice_user in
  let doc := Sample.f1_doc in
  let o := run (delete_file env h "f1") w in
  response o = delete_failed
  /\ bucket (after o) = delete (storagePath doc) (bucket w)
  /\ files (after o) = files w
  /\ users (after o) = users w
  /\ files (after o) !! "f1" = Some doc
  /\ bucket (after o) !! storagePath doc = None
  /\ (forall w' env' h',
        principal env' w' h' = Some user ->
        files w' !! "f1" = Some doc ->
        bucket w' !! storagePath doc = None ->
        response (run (delete_file env' h' "f1") w') = delete_failed
        /\ after (run (delete_file env' h' "f1") w') = w').
Proof.
  intros env w h user doc.
  apply (delete_record_rejected env w h user "f1" doc).
  - apply sample_object_deleted; reflexivity.
  - reflexivity.
Defined.

Lemma delete_counter_rejected_witness :
  let env := Sample.env_at (Sample.only UsersUpdate) 103 "" "" in
  let w := Sample.w3 in
  let h := Some "Bearer u1" in
  let doc := Sample.f1_doc in
  let o := run (delete_file env h "f1") w in
  response o = delete_failed
  /\ bucket (after o) !! storagePath doc = None
  /\ files (after o) !! "f1" = None
  /\ users (after o) = users w.
Proof.
  intros env w h doc.
  apply (delete_counter_rejected env w h Sample.alice_user "f1" doc).
  - apply sample_object_deleted; reflexivity.
  - reflexivity.
  - reflexivity.
Defined.

(** ** Upload and delete together *)

Lemma add_uploads_back d :
  Platform.add_uploads (-1) (Platform.add_uploads 1 d) = d.
Proof.
  destruct d as [e n c u]. unfold Platform.add_uploads. simpl. f_equal. lia.
Qed.

Lemma world_eq w1 w2 :
  auth w1 = auth w2 -> users w1 = users w2 -> files w1 = files w2 ->
  bucket w1 = bucket w2 -> bucket_name w1 = bucket_name w2 -> w1 = w2.
Proof. destruct w1, w2. simpl. by intros -> -> -> -> ->. Qed.

(** What a delete answered 200 has done. *)
Lemma delete_success env w h user fileId :
  principal env w h = Some user ->
  succeeded (run (delete_file env h fileId) w) ->
  exists key doc d,
    Platform.doc_ref fileId = inr (Platform.TopDoc key)
    /\ files w !! key = Some doc
    /\ userId doc = uid user
    /\ is_Some (bucket w !! storagePath doc)
    /\ users w !! uid user = Some d
    /\ after (run (delete_file env h fileId) w) =
         set_users (<[uid user := Platform.add_uploads (-1) d]> (users w))
           (set_files (delete key (files w))
              (set_bucket (delete (storagePath doc) (bucket w)) w)).
Proof.
  intros Hp. rewrite (delete_run _ _ _ user) by done.
  unfold delete_result, succeeded.
  destruct (Platform.doc_ref fileId) as [e|[key|]].
  { by intros (r & [= <-] & ?). }
  2:{ destruct (faults env FilesGet); by intros (r & [= <-] & ?). }
  unfold delete_outcome.
  destruct (faults env FilesGet); [by intros (r & [= <-] & ?)|].
  destruct (files w !! key) as [doc|] eqn:Hfk; [|by intros (r & [= <-] & ?)].
  destruct (bool_decide (userId doc = uid user)) eqn:Ho; simpl;
    [|by intros (r & [= <-] & ?)].
  apply bool_decide_eq_true in Ho.
  destruct (faults env BucketDelete); simpl; [by intros (r & [= <-] & ?)|].
  destruct (bucket w !! storagePath doc) as [ob|] eqn:Hob; simpl;
    [|by intros (r & [= <-] & ?)].
  destruct (faults env FilesDelete); [by intros (r & [= <-] & ?)|].
  unfold counter_doc. destruct (faults env UsersUpdate);
    [by intros (r & [= <-] & ?)|].
  destruct (users w !! uid user) as [d|] eqn:Hd; [|by intros (r & [= <-] & ?)].
  intros _. exists key, doc, d. rewrite Hob. eauto 10.
Qed.

(** The id of a record that an upload answered 200 has written is a
    document id. *)
Lemma upload_success_id env w h user file :
  principal env w h = Some user ->
  succeeded (run (upload env h (Some file)) w) ->
  Platform.doc_ref (new_doc_id env) = inr (Platform.TopDoc (new_doc_id env)).
Proof.
  intros Hp Hok. pose proof (upload_success_size _ _ _ _ _ Hp Hok) as Hsz.
  apply is_doc_id_ref. revert Hok.
  rewrite (upload_run _ _ _ user) by done.
  unfold upload_outcome, succeeded, record_create_fails.
  destruct (faults env BucketWrite); [by intros (r & [= <-] & ?)|].
  destruct (faults env BucketMakePublic); [by intros (r & ? & ?)|].
  destruct (faults env FilesAdd); simpl; [by intros (r & ? & ?)|].
  destruct (Platform.is_doc_id (new_doc_id env)); simpl; [done|].
  by intros (r & ? & ?).
Qed.

(** X19.  An upload answered 200 to a path not in use, followed by a
    delete of the new record answered 200, leaves every service exactly as
    it was before the upload. *)
Theorem upload_then_delete env w h user file env' h' :
  principal env w h = Some user ->
  bucket w !! upload_path (uid user) (date_now env) (originalname file) = None ->
  let o := run (upload env h (Some file)) w in
  succeeded o ->
  principal env' (after o) h' = Some user ->
  let o' := run (delete_file env' h' (new_doc_id env)) (after o) in
  succeeded o' ->
  after o' = w.
Proof.
  intros Hp Hfresh o Hok Hp' o' Hok'. subst o o'.
  pose proof (upload_success_size _ _ _ _ _ Hp Hok) as Hsz.
  destruct (upload_success _ _ _ _ _ Hp Hsz Hok) as (d & Hc & Hid & Hafter).
  unfold counter_doc in Hc. destruct (faults env UsersUpdate); [done|].
  destruct (delete_success _ _ _ _ _ Hp' Hok')
    as (key & doc & d' & Hk & Hf & _ & _ & Hd' & ->).
  rewrite (upload_success_id _ _ _ _ _ Hp Hok) in Hk. injection Hk as <-.
  revert Hf Hd'. rewrite Hafter. simpl.
  rewrite !lookup_insert_eq. intros [= <-] [= <-]. simpl.
  apply world_eq; simpl; try done.
  - rewrite insert_insert_eq, add_uploads_back. by apply insert_id.
  - by apply delete_insert_id.
  - by apply delete_insert_id.
Qed.

Lemma upload_then_delete_witness :
  let env := Sample.env_at no_faults 102 "" "f1" in
  let env' := Sample.env_at no_faults 103 "" "" in
  let w := Sample.w2 in
  let h := Some "Bearer u1" in
  let o := run (upload env h (Some Sample.a_jpg)) w in
  let o' := run (delete_file env' h (new_doc_id env)) (after o) in
  after o' = w.
Proof.
  intros env env' w h.
  apply (upload_then_delete env w h Sample.alice_user Sample.a_jpg env' h).
  - vm_compute. reflexivity.
  - vm_compute. reflexivity.
  - unfold succeeded. vm_compute. eexists. split; reflexivity.
  - vm_compute. reflexivity.
  - unfold succeeded. vm_compute. eexists. split; reflexivity.
Defined.

(** X20.  When two records of one owner name the same storage path, a
    delete of one of them answered 200 removes the object both refer to
    and leaves the other record in [files].  In that state, and in every
    state in which the other record is there and no object is at its path,
    a delete of it by the owner answers 500 and changes nothing. *)
Theorem shared_path_blocks_delete env w h user id1 id2 doc1 doc2 :
  principal env w h = Some user ->
  Platform.is_doc_id id1 = true ->
  Platform.is_doc_id id2 = true ->
  files w !! id1 = Some doc1 ->
  files w !! id2 = Some doc2 ->
  id1 <> id2 ->
  storagePath doc1 = storagePath doc2 ->
  userId doc2 = uid user ->
  let o := run (delete_file env h id1) w in
  succeeded o ->
  files (after o) !! id2 = Some doc2
  /\ bucket (after o) !! storagePath doc2 = None
  /\ (forall w' env' h',
        principal env' w' h' = Some user ->
        files w' !! id2 = Some doc2 ->
        bucket w' !! storagePath doc2 = None ->
        response (run (delete_file env' h' id2) w') = delete_failed
        /\ after (run (delete_file env' h' id2) w') = w').
Proof.
  intros Hp Hi1 Hi2 H1 H2 Hne Hpath Hown o Hok. subst o.
  destruct (delete_success _ _ _ _ _ Hp Hok)
    as (key & doc & d & Hk & Hf & _ & _ & _ & Hafter).
  rewrite (is_doc_id_ref _ Hi1) in Hk. injection Hk as <-.
  rewrite H1 in Hf. injection Hf as <-.
  split; [|split].
  - rewrite Hafter. simpl. by rewrite lookup_delete_ne.
  - rewrite Hafter. simpl. rewrite <- Hpath. apply lookup_delete_eq.
  - intros w' env' h' Hp' Hf' Hb'.
    apply (delete_without_object env' w' h' user id2 id2 doc2); try done.
    by apply is_doc_id_ref.
Qed.

Lemma shared_path_blocks_delete_witness :
  let w := after (run (upload (Sample.env_at no_faults 102 "" "f2")
                         (Some "Bearer u1") (Some Sample.a_jpg)) Sample.w3) in
  let env := Sample.env_at no_faults 103 "" "" in
  let h := Some "Bearer u1" in
  let user := Sample.alice_user in
  let doc2 := Sample.f1_doc in
  let o := run (delete_file env h "f1") w in
  files (after o) !! "f2" = Some doc2
  /\ bucket (after o) !! storagePath doc2 = None
  /\ (forall w' env' h',
        principal env' w' h' = Some user ->
        files w' !! "f2" = Some doc2 ->
        bucket w' !! storagePath doc2 = None ->
        response (run (delete_file env' h' "f2") w') = delete_failed
        /\ after (run (delete_file env' h' "f2") w') = w').
Proof.
  intros w env h user doc2.
  apply (shared_path_blocks_delete env w h user "f1" "f2" Sample.f1_doc doc2).
  - vm_compute. reflexivity.
  - reflexivity.
  - reflexivity.
  - vm_compute. reflexivity.
  - vm_compute. reflexivity.
  - discriminate.
  - reflexivity.
  - reflexivity.
  - unfold succeeded. vm_compute. eexists. split; reflexivity.
Defined.

(** The second record of the pair, asked for right after the first was
    deleted: 500, and only the rejected object delete was tried. *)
Example shared_path_second_delete :
  let w := after (run (upload (Sample.env_at no_faults 102 "" "f2")
                         (Some "Bearer u1") (Some Sample.a_jpg)) Sample.w3) in
  let w' := after (run (delete_file (Sample.env_at no_faults 103 "" "")
                          (Some "Bearer u1") "f1") w) in
  run (delete_file (Sample.env_at no_faults 104 "" "") (Some "Bearer u1") "f2") w'
  = {| response := delete_failed; after := w';
       trace := [AuthGetUser; FilesGet; BucketDelete] |}.
Proof. vm_compute. reflexivity. Qed.

(** The block lasts only while the path is empty: an upload that writes the
    same path again makes the delete of the remaining record succeed. *)
Example shared_path_restored :
  let w := after (run (upload (Sample.env_at no_faults 102 "" "f2")
                         (Some "Bearer u1") (Some Sample.a_jpg)) Sample.w3) in
  let w' := after (run (delete_file (Sample.env_at no_faults 103 "" "")
                          (Some "Bearer u1") "f1") w) in
  let w'' := after (run (upload (Sample.env_at no_faults 102 "" "f3")
                           (Some "Bearer u1") (Some Sample.a_jpg)) w') in
  response (run (delete_file (Sample.env_at no_faults 104 "" "")
                   (Some "Bearer u1") "f2") w'')
  = Some {| status := 200; body := BMessage "File deleted successfully" |}.
Proof. vm_compute. reflexivity. Qed.

(** ** One request as a transition *)

Lemma signup_step env b w : Step env w (Signup b) (after (run (signup env b) w)).
Proof.
  destruct (b_email b) as [e|] eqn:He.
  2:{ unfold run, signup. rewrite He. simpl. apply step_same. }
  destruct (b_password b) as [p|] eqn:Hp.
  2:{ unfold run, signup. rewrite He, Hp. simpl. rewrite orb_true_r.
      apply step_same. }
  destruct (decide (e = "")) as [->|Hne].
  { unfold run, signup. rewrite He. simpl. apply step_same. }
  destruct (decide (p = "")) as [->|Hnp].
  { unfold run, signup. rewrite He, Hp. simpl. rewrite orb_true_r.
    apply step_same. }
  rewrite (signup_run _ _ _ e p) by done. unfold signup_outcome.
  destruct (faults env AuthCreateUser); [apply step_same|].
  destruct (negb (Platform.valid_email e)); [apply step_same|].
  destruct (negb (Platform.valid_password p)); [apply step_same|].
  destruct (Platform.find_email (auth w) e) eqn:Hfe; [apply step_same|].
  destruct (Platform.find_uid (auth w) (new_uid env)) eqn:Hfu; [apply step_same|].
  simpl. destruct (faults env UsersSet) eqn:Hs; simpl.
  - by apply step_identity.
  - by apply step_signup.
Qed.

Lemma upload_step env h f w :
  Step env w (Upload h f) (after (run (upload env h f) w)).
Proof.
  destruct (principal env w h) as [user|] eqn:Hp.
  2:{ unfold upload. rewrite verifyToken_refusal by done.
      rewrite refusal_unchanged. apply step_same. }
  destruct f as [file|].
  2:{ unfold run, upload. rewrite (verifyToken_pass _ _ _ _ user) by done.
      apply step_same. }
  destruct (N.lt_ge_cases (size file) fileSize_limit) as [Hsz|Hsz].
  2:{ rewrite (upload_oversize _ _ _ user) by done. apply step_same. }
  rewrite (upload_run _ _ _ user) by done. unfold upload_outcome.
  destruct (faults env BucketWrite); [apply step_same|].
  destruct (faults env BucketMakePublic); [by apply (step_object _ _ _ _ _ false)|].
  destruct (record_create_fails env w) eqn:Hr;
    [by apply (step_object _ _ _ _ _ true)|].
  assert (files w !! new_doc_id env = None) as Hid.
  { unfold record_create_fails in Hr. apply orb_false_iff in Hr as [_ Hr].
    apply bool_decide_eq_false in Hr.
    destruct (files w !! new_doc_id env); [|done]. destruct Hr. eauto. }
  destruct (counter_doc env w (uid user)) as [d|] eqn:Hc; simpl.
  - unfold counter_doc in Hc. destruct (faults env UsersUpdate); [done|].
    by apply step_upload.
  - by apply step_record.
Qed.

Lemma delete_step env h id w :
  Step env w (DeleteFile h id) (after (run (delete_file env h id) w)).
Proof.
  destruct (principal env w h) as [user|] eqn:Hp.
  2:{ unfold delete_file. rewrite verifyToken_refusal by done.
      rewrite refusal_unchanged. apply step_same. }
  rewrite (delete_run _ _ _ user) by done. unfold delete_result.
  destruct (Platform.doc_ref id) as [e|[key|]]; [apply step_same| |apply step_same].
  unfold delete_outcome.
  destruct (faults env FilesGet); [apply step_same|].
  destruct (files w !! key) as [doc|] eqn:Hf; [|apply step_same].
  destruct (bool_decide (userId doc = uid user)) eqn:Ho; simpl;
    [|apply step_same].
  apply bool_decide_eq_true in Ho.
  destruct (faults env BucketDelete || _); [apply step_same|].
  destruct (faults env FilesDelete) eqn:Hfd;
    [by apply (step_unobject _ _ _ _ key user)|].
  destruct (counter_doc env w (uid user)) as [d|] eqn:Hc; simpl.
  - unfold counter_doc in Hc. destruct (faults env UsersUpdate); [done|].
    by apply (step_delete _ _ _ _ key user).
  - by apply (step_unrecord _ _ _ _ key user).
Qed.

Lemma handle_step env req w : Step env w req (after (run (handle env req) w)).
Proof.
  destruct req; simpl.
  - apply signup_step.
  - rewrite login_unchanged. apply step_same.
  - apply upload_step.
  - rewrite list_unchanged. apply step_same.
  - apply delete_step.
Qed.

(** ** What every reachable state satisfies *)

Lemma find_uid_app_l a b k u :
  Platform.find_uid a k = Some u -> Platform.find_uid (a ++ b) k = Some u.
Proof.
  unfold Platform.find_uid. induction a as [|x a IH]; simpl; [done|].
  by destruct (bool_decide (ur_uid x = k)).
Qed.

Lemma find_uid_In a k u :
  Platform.find_uid a k = Some u -> In u a /\ ur_uid u = k.
Proof.
  unfold Platform.find_uid. intros H. apply find_some in H as [Hin H].
  split; [done|]. by apply bool_decide_eq_true in H.
Qed.

Lemma users_identified_step env req w w' :
  users_identified w -> Step env w req w' -> users_identified w'.
Proof.
  intros Hd Hstep.
  assert (forall user delta d,
            users w !! uid user = Some d ->
            forall k d', <[uid user := Platform.add_uploads delta d]> (users w) !! k
                         = Some d' ->
            exists u, Platform.find_uid (auth w) k = Some u
                      /\ ur_uid u = k /\ ur_displayName u = displayName d')
    as Hcount.
  { intros user delta d Hdoc k d'.
    destruct (decide (k = uid user)) as [->|Hne].
    - rewrite lookup_insert_eq. intros [= <-]. simpl. by apply Hd.
    - rewrite lookup_insert_ne by done. apply Hd. }
  destruct Hstep as
    [ ? | b e p dn Hfe Hfu _ | b e p dn Hfe Hfu
    | h file user pub Hp | h file user Hp Hid Hc | h file user d Hp Hid Hdoc
    | h id key user doc Hp Hf Ho _ | h id key user doc Hp Hf Ho Hc
    | h id key user doc d Hp Hf Ho Hdoc ];
    unfold users_identified; simpl; try done.
  - intros k d Hk. destruct (Hd k d Hk) as (u & Hfind & ?).
    exists u. split; [by apply find_uid_app_l|done].
  - intros k d. destruct (decide (k = new_uid env)) as [->|Hne].
    + rewrite lookup_insert_eq. intros [= <-].
      exists (new_record env e p dn). split; [|done].
      by apply (find_uid_app_new (auth w) (new_record env e p dn)).
    + rewrite lookup_insert_ne by done. intros Hk.
      destruct (Hd k d Hk) as (u & Hfind & ?).
      exists u. split; [by apply find_uid_app_l|done].
  - by apply Hcount.
  - by apply Hcount.
Qed.

(** X21.  In every state the services reach through requests, whatever
    the platform rejects on the way, every [users] document is keyed by the
    uid of an identity record, and its display name is the one that record
    was created with. *)
Theorem users_stay_identified w :
  reachable any_env w -> users_identified w.
Proof.
  induction 1 as [name|env req w _ IH _].
  - intros k d. simpl. by rewrite lookup_empty.
  - apply (users_identified_step env req w); [done|apply handle_step].
Qed.

Lemma users_stay_identified_witness : users_identified Sample.w3.
Proof.
  apply (users_stay_identified Sample.w3).
  apply (reachable_step any_env (Sample.env_at no_faults 102 "" "f1")
           (Upload (Some "Bearer u1") (Some Sample.a_jpg)) Sample.w2);
    [|reflexivity].
  apply (reachable_step any_env (Sample.env_at no_faults 101 "u2" "")
           (Signup Sample.bob) Sample.w1); [|reflexivity].
  apply (reachable_step any_env (Sample.env_at no_faults 100 "u1" "")
           (Signup Sample.alice) Sample.w0); [|reflexivity].
  apply (reachable_initial any_env "demo.appspot.com").
Defined.

Lemma Step_grows env req w w' :
  Step env w req w' ->
  bucket_name w' = bucket_name w
  /\ forall k, is_Some (Platform.find_uid (auth w) k) ->
               is_Some (Platform.find_uid (auth w') k).
Proof.
  intros Hstep. destruct Hstep; simpl; split; try done;
    intros k Hk; by apply find_uid_app.
Qed.

Lemma paths_step env req w w' :
  paths_namespaced w -> Step env w req w' -> paths_namespaced w'.
Proof.
  intros [Hf Hb] Hstep.
  destruct (Step_grows _ _ _ _ Hstep) as [Hname Hgrow].
  assert (forall id f, files w !! id = Some f ->
            is_Some (Platform.find_uid (auth w') (userId f))
            /\ (exists t, storagePath f = upload_path (userId f) t (fileName f))
            /\ publicUrl f =
                 "https://storage.googleapis.com/" +:+ bucket_name w' +:+ "/"
                   +:+ storagePath f) as Hf'.
  { intros id f Hid. destruct (Hf id f Hid) as (Hk & Hp & Hu).
    rewrite Hname. split; [by apply Hgrow|done]. }
  assert (forall path o, bucket w !! path = Some o ->
            is_Some (Platform.find_uid (auth w') (so_uploadedBy o))
            /\ exists t, path = upload_path (so_uploadedBy o) t (so_originalName o))
    as Hb'.
  { intros path o Hpath. destruct (Hb path o Hpath) as (Hk & Hp).
    split; [by apply Hgrow|done]. }
  clear Hf Hb Hgrow.
  assert (forall h user file pub path o,
            principal env w h = Some user ->
            auth w' = auth w ->
            <[upload_path (uid user) (date_now env) (originalname file)
              := written_object user file pub]> (bucket w) !! path = Some o ->
            is_Some (Platform.find_uid (auth w') (so_uploadedBy o))
            /\ exists t, path = upload_path (so_uploadedBy o) t (so_originalName o))
    as Hobj.
  { intros h user file pub path o Hp Ha.
    destruct (decide (path = upload_path (uid user) (date_now env)
                              (originalname file))) as [->|Hne].
    - rewrite lookup_insert_eq. intros [= <-]. simpl. split.
      + rewrite Ha. by apply (principal_known env w h).
      + by exists (date_now env).
    - rewrite lookup_insert_ne by done. apply Hb'. }
  assert (forall h user file id f,
            principal env w h = Some user ->
            auth w' = auth w ->
            <[new_doc_id env := uploaded_record env w user file]> (files w) !! id
              = Some f ->
            is_Some (Platform.find_uid (auth w') (userId f))
            /\ (exists t, storagePath f = upload_path (userId f) t (fileName f))
            /\ publicUrl f =
                 "https://storage.googleapis.com/" +:+ bucket_name w' +:+ "/"
                   +:+ storagePath f) as Hrec.
  { intros h user file id f Hp Ha.
    destruct (decide (id = new_doc_id env)) as [->|Hne].
    - rewrite lookup_insert_eq. intros [= <-]. simpl. split; [|split].
      + rewrite Ha. by apply (principal_known env w h).
      + by exists (date_now env).
      + by rewrite Hname.
    - rewrite lookup_insert_ne by done. apply Hf'. }
  destruct Hstep as
    [ ? | b e p dn Hfe Hfu _ | b e p dn Hfe Hfu
    | h file user pub Hp | h file user Hp Hid Hc | h file user d Hp Hid Hdoc
    | h id key user doc Hp Hfd Ho _ | h id key user doc Hp Hfd Ho Hc
    | h id key user doc d Hp Hfd Ho Hdoc ];
    unfold paths_namespaced; simpl in *; split;
    try done;
    try (intros ? ?; by apply (Hobj h user file _));
    try (intros ? ?; by apply (Hrec h user file));
    try (intros ? ? Hl; apply lookup_delete_Some in Hl as [_ Hl]; eauto).
Qed.

(** X22.  In every state the services reach through requests, whatever
    the platform rejects on the way, every record's storage path is
    [uploads/<its userId>/<some Date.now()>_<its fileName>] and its public
    URL is the bucket's URL followed by that path, every object sits under
    the prefix of the uid in its own metadata, and those uids belong to
    registered identities. *)
Theorem paths_stay_namespaced w :
  reachable any_env w -> paths_namespaced w.
Proof.
  induction 1 as [name|env req w _ IH _].
  - split; intros ? ?; simpl; by rewrite lookup_empty.
  - apply (paths_step env req w); [done|apply handle_step].
Qed.

Lemma paths_stay_namespaced_witness : paths_namespaced Sample.w3.
Proof.
  apply (paths_stay_namespaced Sample.w3).
  apply (reachable_step any_env (Sample.env_at no_faults 102 "" "f1")
           (Upload (Some "Bearer u1") (Some Sample.a_jpg)) Sample.w2);
    [|reflexivity].
  apply (reachable_step any_env (Sample.env_at no_faults 101 "u2" "")
           (Signup Sample.bob) Sample.w1); [|reflexivity].
  apply (reachable_step any_env (Sample.env_at no_faults 100 "u1" "")
           (Signup Sample.alice) Sample.w0); [|reflexivity].
  apply (reachable_initial any_env "demo.appspot.com").
Defined.

Lemma fault_free_spec env req :
  fault_free env req = true -> forall o, faults env o = false.
Proof.
  unfold fault_free. intros H o. rewrite forallb_forall in H.
  apply negb_true_iff, H. unfold all_ops. destruct o; simpl; tauto.
Qed.

Lemma listing_length w k : length (listing w k) = owned (files w) k.
Proof.
  unfold listing, owned. rewrite merge_sort_Permutation.
  apply length_map_to_list.
Qed.

Lemma counters_step env req w w' :
  (forall o, faults env o = false) ->
  counters_exact w -> Step env w req w' -> counters_exact w'.
Proof.
  intros Hff (Hdoc & Hcnt & Hown) Hstep.
  assert (forall h user, principal env w h = Some user ->
                         counter_doc env w (uid user) <> None) as Hcounter.
  { intros h user Hp. unfold counter_doc. rewrite Hff.
    destruct (principal_known _ _ _ _ Hp) as [u Hu].
    apply find_uid_In in Hu as [Hin <-].
    destruct (Hdoc u Hin) as [d ->]. done. }
  destruct Hstep as
    [ ? | b e p dn Hfe Hfu Hs | b e p dn Hfe Hfu
    | h file user pub Hp | h file user Hp Hid Hc | h file user d Hp Hid Hd
    | h id key user doc Hp Hf Ho Hfd | h id key user doc Hp Hf Ho Hc
    | h id key user doc d Hp Hf Ho Hd ];
    try done.
  - by rewrite Hff in Hs.
  - unfold counters_exact. simpl. split; [|split].
    + intros u Hin. apply in_app_or in Hin as [Hin|[<-|[]]].
      * destruct (decide (ur_uid u = new_uid env)) as [->|Hne].
        -- rewrite lookup_insert_eq. eauto.
        -- rewrite lookup_insert_ne by done. by apply Hdoc.
      * simpl. rewrite lookup_insert_eq. eauto.
    + intros k d. destruct (decide (k = new_uid env)) as [->|Hne].
      * rewrite lookup_insert_eq. intros [= <-]. simpl.
        rewrite owned_none; [done|]. intros id f Hid Heq.
        destruct (Hown id f Hid) as [x Hx]. congruence.
      * rewrite lookup_insert_ne by done. apply Hcnt.
    + intros id f Hid. by apply find_uid_app, (Hown id).
  - by destruct (Hcounter h user Hp).
  - unfold counters_exact. simpl. split; [|split].
    + intros u Hin. destruct (decide (ur_uid u = uid user)) as [->|Hne].
      * rewrite lookup_insert_eq. eauto.
      * rewrite lookup_insert_ne by done. by apply Hdoc.
    + intros k d'. unfold uploaded_record.
      destruct (decide (k = uid user)) as [->|Hne].
      * rewrite lookup_insert_eq. intros [= <-]. simpl.
        rewrite owned_insert_same by done. rewrite (Hcnt _ _ Hd). lia.
      * rewrite lookup_insert_ne by done.
        rewrite owned_insert_other by (simpl; congruence). apply Hcnt.
    + intros id f. destruct (decide (id = new_doc_id env)) as [->|Hne].
      * rewrite lookup_insert_eq. intros [= <-]. simpl.
        by apply (principal_known env w h).
      * rewrite lookup_insert_ne by done. apply Hown.
  - by destruct (Hcounter h user Hp).
  - unfold counters_exact. simpl. split; [|split].
    + intros u Hin. destruct (decide (ur_uid u = uid user)) as [->|Hne].
      * rewrite lookup_insert_eq. eauto.
      * rewrite lookup_insert_ne by done. by apply Hdoc.
    + intros k d'. destruct (decide (k = uid user)) as [->|Hne].
      * rewrite lookup_insert_eq. intros [= <-]. simpl.
        pose proof (owned_delete_same _ _ _ _ Hf Ho). rewrite (Hcnt _ _ Hd). lia.
      * rewrite lookup_insert_ne by done.
        rewrite (owned_delete_other _ _ doc) by congruence. apply Hcnt.
    + intros id0 f Hid0. apply lookup_delete_Some in Hid0 as [_ Hid0].
      by apply (Hown id0).
Qed.

(** X23.  Over requests handled one after the other in which the platform
    rejects no call on its own account, every registered identity has its
    [users] document and every [uploads] counter equals the number of
    records its principal owns, which is the [count] a listing for that
    principal returns. *)
Theorem counters_stay_exact w :
  reachable fault_free w ->
  (forall u, In u (auth w) -> is_Some (users w !! ur_uid u))
  /\ (forall k d, users w !! k = Some d ->
        uploads d = Z.of_nat (owned (files w) k)
        /\ uploads d = Z.of_nat (length (listing w k))).
Proof.
  intros Hr.
  assert (counters_exact w) as (Hdoc & Hcnt & _).
  { induction Hr as [name|env req w _ IH Hff].
    - split; [by intros u []|].
      split; intros ? ?; simpl; by rewrite lookup_empty.
    - apply (counters_step env req w);
        [by apply (fault_free_spec env req)|done|apply handle_step]. }
  split; [done|]. intros k d Hd. rewrite listing_length. split; by apply Hcnt.
Qed.

Lemma counters_stay_exact_witness :
  let w := Sample.w3 in
  (forall u, In u (auth w) -> is_Some (users w !! ur_uid u))
  /\ (forall k d, users w !! k = Some d ->
        uploads d = Z.of_nat (owned (files w) k)
        /\ uploads d = Z.of_nat (length (listing w k))).
Proof.
  intros w. apply (counters_stay_exact w).
  apply (reachable_step fault_free (Sample.env_at no_faults 102 "" "f1")
           (Upload (Some "Bearer u1") (Some Sample.a_jpg)) Sample.w2);
    [|reflexivity].
  apply (reachable_step fault_free (Sample.env_at no_faults 101 "u2" "")
           (Signup Sample.bob) Sample.w1); [|reflexivity].
  apply (reachable_step fault_free (Sample.env_at no_faults 100 "u1" "")
           (Signup Sample.alice) Sample.w0); [|reflexivity].
  apply (reachable_initial fault_free "demo.appspot.com").
Defined.
